(** * CMS provider hospitals ETL: a shallow embedding of [cms_hospitals_etl.py]

    The development follows the Python module function by function:
    the metadata store ([load_last_update_date], [update_last_run_date]),
    the column-name normaliser ([to_snake_case]), the catalog filter
    ([fetch_hospital_datasets]), the per-dataset worker ([process_dataset])
    and the driver ([run_etl_job]).

    Conventions.
    - A Python [str] is a [string]; its characters are the 256 code points
      below U+0100, on which [str.lower], [str.strip] and the [re] character
      class are written out exactly.
    - Values decoded from JSON are the inductive [json]; a Python [dict] is a
      [gmap string json].
    - A Python exception is a [Raise] result; functions with side effects
      thread a [World] (metadata file, output directory, trace of events). *)

From Stdlib Require Import ZArith NArith Ascii Bool.
From stdpp Require Import gmap strings list fin_maps.

Local Open Scope Z_scope.
#[local] Set Warnings "-clear-no-such-hyp".

(** ** Characters and strings *)

Module Str.

Definition code (c : ascii) : N := N_of_ascii c.

Definition between (lo hi : N) (c : ascii) : bool :=
  ((lo <=? code c) && (code c <=? hi))%N.

(** The class [a-z0-9] of the pattern in [to_snake_case]. *)
Definition in_class (c : ascii) : bool :=
  between 97 122 c || between 48 57 c.

(** The negated class [^a-z0-9]. *)
Definition out_class (c : ascii) : bool := negb (in_class c).

(** [str.lower] on one character: A-Z, and the Latin-1 capitals
    U+00C0..U+00DE apart from the multiplication sign U+00D7. Below U+0100
    a character lowers to one character; further up [str.lower] may give
    two (U+0130), which is outside this alphabet. *)
Definition lower_char (c : ascii) : ascii :=
  if between 65 90 c || (between 192 222 c && negb (code c =? 215)%N)
  then ascii_of_N (code c + 32)
  else c.

Fixpoint lower (s : string) : string :=
  match s with
  | EmptyString => EmptyString
  | String c r => String (lower_char c) (lower r)
  end.

(** [str.isspace] on one character. *)
Definition is_space (c : ascii) : bool :=
  between 9 13 c || between 28 32 c || (code c =? 133)%N || (code c =? 160)%N.

Fixpoint lstrip (s : string) : string :=
  match s with
  | EmptyString => EmptyString
  | String c r => if is_space c then lstrip r else s
  end.

Fixpoint rstrip (s : string) : string :=
  match s with
  | EmptyString => EmptyString
  | String c r =>
      match rstrip r with
      | EmptyString => if is_space c then EmptyString else String c EmptyString
      | r' => String c r'
      end
  end.

(** [str.strip()] with no argument. *)
Definition strip (s : string) : string := rstrip (lstrip s).

(** [re.sub(p+, repl, s)] for a one-character class [p]: the scanner walks
    the subject from the left; a match starts at the first character of the
    class and, [+] being greedy, runs to the last consecutive one; the
    match is replaced by [repl] once. [in_match] tells that the character
    before the current one belongs to a match already replaced. *)
Fixpoint re_sub_plus (p : ascii -> bool) (repl : string)
    (in_match : bool) (s : string) : string :=
  match s with
  | EmptyString => EmptyString
  | String c r =>
      if p c then
        if in_match then re_sub_plus p repl true r
        else repl +:+ re_sub_plus p repl true r
      else String c (re_sub_plus p repl false r)
  end.

Definition re_sub (p : ascii -> bool) (repl s : string) : string :=
  re_sub_plus p repl false s.

(** [needle in s] on two strings: [needle] occurs in [s]. *)
Fixpoint is_prefix (p s : string) : bool :=
  match p, s with
  | EmptyString, _ => true
  | String a p', String b s' => if ascii_dec a b then is_prefix p' s' else false
  | String _ _, EmptyString => false
  end.

Fixpoint contains (needle s : string) : bool :=
  is_prefix needle s ||
  match s with
  | EmptyString => false
  | String _ r => contains needle r
  end.

Fixpoint all (p : ascii -> bool) (s : string) : bool :=
  match s with
  | EmptyString => true
  | String c r => p c && all p r
  end.

(** The last character of a string. *)
Fixpoint last (s : string) : option ascii :=
  match s with
  | EmptyString => None
  | String c EmptyString => Some c
  | String _ r => last r
  end.

End Str.

(** ** The name normaliser *)

(** [to_snake_case(col_name)]: [lower], then [re.sub(r"[^a-z0-9]+", "_", _)],
    then [strip]. *)
Definition to_snake_case (col_name : string) : string :=
  let col_name := Str.lower col_name in
  let col_name := Str.re_sub Str.out_class "_" col_name in
  Str.strip col_name.

(** The algorithm of the specification, written from its words: the
    lowercased name is cut into its maximal runs of characters inside and
    outside [a-z0-9]; every run outside becomes one underscore; the result
    is trimmed of white space at both ends. *)
Module Reference.

(** The maximal runs of [s]; the flag tells that the run lies outside the
    class. *)
Fixpoint runs (s : string) : list (bool * string) :=
  match s with
  | EmptyString => []
  | String c r =>
      match runs r with
      | (b, w) :: tl =>
          if Bool.eqb b (Str.out_class c) then (b, String c w) :: tl
          else (Str.out_class c, String c EmptyString) :: (b, w) :: tl
      | [] => [(Str.out_class c, String c EmptyString)]
      end
  end.

Definition replace_run (r : bool * string) : string :=
  if r.1 then "_" else r.2.

Fixpoint join (l : list string) : string :=
  match l with
  | [] => EmptyString
  | x :: tl => x +:+ join tl
  end.

Fixpoint drop_space (l : list ascii) : list ascii :=
  match l with
  | [] => []
  | c :: tl => if Str.is_space c then drop_space tl else l
  end.

Definition trim (s : string) : string :=
  String.string_of_list_ascii
    (rev (drop_space (rev (drop_space (String.list_ascii_of_string s))))).

Definition normalize (name : string) : string :=
  trim (join (replace_run <$> runs (Str.lower name))).

End Reference.

(** ** Exceptions *)

Inductive exn :=
| TypeError | ValueError | AttributeError | KeyError | IndexError
| JSONDecodeError | RequestException | ParserError | OSError.

Inductive result (A : Type) :=
| Ok (a : A)
| Raise (e : exn).
Arguments Ok {A} a.
Arguments Raise {A} e.

Definition is_ok {A} (r : result A) : bool :=
  match r with Ok _ => true | Raise _ => false end.

Definition rbind {A B} (r : result A) (k : A -> result B) : result B :=
  match r with
  | Ok a => k a
  | Raise e => Raise e
  end.

(** ** Values decoded from JSON

    [json.load] and [Response.json] build [None], [bool], [int], [str],
    [list] and [dict] values; numbers are the integers. *)

#[warnings="-register-all"]
Inductive json :=
| JNull
| JBool (b : bool)
| JInt (n : Z)
| JStr (s : string)
| JArr (l : list json)
| JObj (o : gmap string json).

Module Py.

(** Truth value of an object, as tested by [if], [not] and [and]. *)
Definition truthy (v : json) : bool :=
  match v with
  | JNull => false
  | JBool b => b
  | JInt n => negb (n =? 0)
  | JStr s => negb (String.eqb s "")
  | JArr l => match l with [] => false | _ => true end
  | JObj o => negb (bool_decide (o = ∅))
  end.

(** [d.get(key)] on a dict: [None] when the key is absent. *)
Definition dict_get (d : gmap string json) (key : string) : json :=
  default JNull (d !! key).

(** [d.get(key, dflt)]. *)
Definition dict_get_or (d : gmap string json) (key : string) (dflt : json) : json :=
  default dflt (d !! key).

(** [v.get(key)] and [v.get(key, dflt)] on any value: only a dict has the
    method. *)
Definition get (v : json) (key : string) : result json :=
  match v with
  | JObj o => Ok (dict_get o key)
  | _ => Raise AttributeError
  end.

Definition get_or (v : json) (key : string) (dflt : json) : result json :=
  match v with
  | JObj o => Ok (dict_get_or o key dflt)
  | _ => Raise AttributeError
  end.

(** [s == v] for a string [s]. *)
Definition str_eq (s : string) (v : json) : bool :=
  match v with
  | JStr t => String.eqb s t
  | _ => false
  end.

(** [s in v] for a string [s]: substring of a string, element of a list,
    key of a dict; the other values are not containers. *)
Definition contains (s : string) (v : json) : result bool :=
  match v with
  | JStr t => Ok (Str.contains s t)
  | JArr l => Ok (existsb (str_eq s) l)
  | JObj o => Ok (bool_decide (is_Some (o !! s)))
  | JNull | JBool _ | JInt _ => Raise TypeError
  end.

Fixpoint chars (s : string) : list json :=
  match s with
  | EmptyString => []
  | String c r => JStr (String c EmptyString) :: chars r
  end.

(** The items a [for] clause draws from [v]. *)
Definition iter (v : json) : result (list json) :=
  match v with
  | JArr l => Ok l
  | JStr s => Ok (chars s)
  | JObj o => Ok ((fun kv => JStr kv.1) <$> map_to_list o)
  | JNull | JBool _ | JInt _ => Raise TypeError
  end.

(** [v[0]]. A list gives its first element; a string its first
    character; a dict decoded from JSON has string keys only, so the key
    [0] is missing. *)
Definition item0 (v : json) : result json :=
  match v with
  | JArr (x :: _) => Ok x
  | JArr [] => Raise IndexError
  | JStr (String c _) => Ok (JStr (String c EmptyString))
  | JStr EmptyString => Raise IndexError
  | JObj _ => Raise KeyError
  | JNull | JBool _ | JInt _ => Raise TypeError
  end.

(** [os.path.join(a, b)] on POSIX. *)
Definition path_join (a b : string) : string :=
  match b with
  | String "/" _ => b
  | _ =>
      if String.eqb a "" then b
      else if String.eqb (String.substring (String.length a - 1) 1 a) "/"
           then a +:+ b
           else a +:+ "/" +:+ b
  end.

End Py.

(** ** [datetime]

    A [datetime] holds the civil fields and, when it is aware, its offset
    from UTC in microseconds. *)

Record datetime := {
  year : Z; month : Z; day : Z;
  hour : Z; minute : Z; second : Z; microsecond : Z;
  tzinfo : option Z
}.

Module Datetime.

(** [datetime.min]. *)
Definition min : datetime :=
  {| year := 1; month := 1; day := 1;
     hour := 0; minute := 0; second := 0; microsecond := 0;
     tzinfo := None |}.

Definition is_leap (y : Z) : bool :=
  (y mod 4 =? 0) && (negb (y mod 100 =? 0) || (y mod 400 =? 0)).

Definition days_in_month (y m : Z) : Z :=
  if m =? 2 then (if is_leap y then 29 else 28)
  else if (m =? 4) || (m =? 6) || (m =? 9) || (m =? 11) then 30
  else 31.

Definition days_before_year (y : Z) : Z :=
  let y := y - 1 in y * 365 + y / 4 - y / 100 + y / 400.

Definition days_before_month (y m : Z) : Z :=
  fold_right Z.add 0
    ((fun k => days_in_month y (Z.of_nat k)) <$> seq 1 (Z.to_nat (m - 1))).

(** Proleptic Gregorian ordinal of a date; 0001-01-01 is day 1. *)
Definition ymd2ord (y m d : Z) : Z :=
  days_before_year y + days_before_month y m + d.

Definition within (lo hi x : Z) : bool := (lo <=? x) && (x <=? hi).

Definition day_us : Z := 86400 * 1000000.

(** The checks of the [datetime] and [timezone] constructors. *)
Definition valid (d : datetime) : bool :=
  within 1 9999 (year d) && within 1 12 (month d) &&
  within 1 (days_in_month (year d) (month d)) (day d) &&
  within 0 23 (hour d) && within 0 59 (minute d) &&
  within 0 59 (second d) && within 0 999999 (microsecond d) &&
  match tzinfo d with
  | None => true
  | Some off => (- day_us <? off) && (off <? day_us)
  end.

(** Microseconds of the civil fields since the start of day 0. *)
Definition civil_us (d : datetime) : Z :=
  (((ymd2ord (year d) (month d) (day d) * 24 + hour d) * 60 + minute d) * 60
     + second d) * 1000000 + microsecond d.

Definition fields (d : datetime) : list Z :=
  [year d; month d; day d; hour d; minute d; second d; microsecond d].

(** Comparison of two tuples of fields, as [_cmp] does. *)
Fixpoint cmp (a b : list Z) : comparison :=
  match a, b with
  | x :: a', y :: b' =>
      match x ?= y with
      | Eq => cmp a' b'
      | c => c
      end
  | [], [] => Eq
  | [], _ :: _ => Lt
  | _ :: _, [] => Gt
  end.

(** [a <= b]: two naive values compare by their fields, two aware ones by
    their instants; a naive and an aware one cannot be ordered. *)
Definition le (a b : datetime) : result bool :=
  match tzinfo a, tzinfo b with
  | None, None =>
      Ok (match cmp (fields a) (fields b) with Gt => false | _ => true end)
  | Some oa, Some ob => Ok (civil_us a - oa <=? civil_us b - ob)
  | _, _ => Raise TypeError
  end.

(** *** Parsing: [datetime.fromisoformat]

    The grammar is the documented one,
    [YYYY-MM-DD[*HH[:MM[:SS[.fff[fff]]]][+HH:MM[:SS[.ffffff]]]]],
    where [*] is any one character. This is what Python 3.7 to 3.10 read;
    later versions read more forms of ISO 8601 (a final [Z], dates and
    times without separators, other lengths of fraction). *)

Definition digit (c : ascii) : option Z :=
  if Str.between 48 57 c then Some (Z.of_N (Str.code c) - 48) else None.

(** Reads exactly [n] digits in front of [s]. *)
Fixpoint number (n : nat) (acc : Z) (s : string) : option (Z * string) :=
  match n with
  | O => Some (acc, s)
  | S n' =>
      match s with
      | String c r =>
          match digit c with
          | Some v => number n' (acc * 10 + v) r
          | None => None
          end
      | EmptyString => None
      end
  end.

Definition expect (c : ascii) (s : string) : option string :=
  match s with
  | String c' r => if ascii_dec c c' then Some r else None
  | EmptyString => None
  end.

(** [YYYY-MM-DD] in front of [s]. *)
Definition parse_date (s : string) : option (Z * Z * Z * string) :=
  '(y, s) ← number 4 0 s;
  s ← expect "-" s;
  '(m, s) ← number 2 0 s;
  s ← expect "-" s;
  '(d, s) ← number 2 0 s;
  Some (y, m, d, s).

(** [.fff] or [.ffffff], the whole of [s]. *)
Definition parse_fraction (s : string) : option Z :=
  s ← expect "." s;
  if (String.length s =? 3)%nat then
    '(f, _) ← number 3 0 s; Some (f * 1000)
  else if (String.length s =? 6)%nat then
    '(f, _) ← number 6 0 s; Some f
  else None.

(** [HH[:MM[:SS[.fff[fff]]]]], the whole of [s]. *)
Definition parse_hh_mm_ss_ff (s : string) : option (Z * Z * Z * Z) :=
  '(h, s) ← number 2 0 s;
  match s with
  | EmptyString => Some (h, 0, 0, 0)
  | _ =>
      s ← expect ":" s;
      '(mi, s) ← number 2 0 s;
      match s with
      | EmptyString => Some (h, mi, 0, 0)
      | _ =>
          s ← expect ":" s;
          '(sec, s) ← number 2 0 s;
          match s with
          | EmptyString => Some (h, mi, sec, 0)
          | _ => f ← parse_fraction s; Some (h, mi, sec, f)
          end
      end
  end.

(** Cuts [s] at the first character equal to [c]. *)
Fixpoint split_at (c : ascii) (s : string) : option (string * string) :=
  match s with
  | EmptyString => None
  | String c' r =>
      if ascii_dec c c' then Some (EmptyString, r)
      else '(a, b) ← split_at c r; Some (String c' a, b)
  end.

(** The time of day and the offset: the offset starts at the first [-],
    or else at the first [+], and is [HH:MM], [HH:MM:SS] or
    [HH:MM:SS.ffffff]. *)
Definition parse_time (s : string) : option (Z * Z * Z * Z * option Z) :=
  let cut :=
    match split_at "-" s with
    | Some (a, b) => Some (-1, a, b)
    | None =>
        match split_at "+" s with
        | Some (a, b) => Some (1, a, b)
        | None => None
        end
    end in
  match cut with
  | None => t ← parse_hh_mm_ss_ff s; Some (t, None)
  | Some (sign, tstr, tzstr) =>
      t ← parse_hh_mm_ss_ff tstr;
      guard (String.length tzstr ∈ [5; 8; 15]%nat);;
      '(h, mi, sec, f) ← parse_hh_mm_ss_ff tzstr;
      Some (t, Some (sign * (((h * 60 + mi) * 60 + sec) * 1000000 + f)))
  end.

Definition parse (s : string) : option datetime :=
  '(y, m, d, s) ← parse_date s;
  '(h, mi, sec, f, tz) ←
    match s with
    | EmptyString => Some (0, 0, 0, 0, None)
    | String _ tstr => parse_time tstr
    end;
  let dt := {| year := y; month := m; day := d;
               hour := h; minute := mi; second := sec; microsecond := f;
               tzinfo := tz |} in
  if valid dt then Some dt else None.

(** [datetime.fromisoformat(v)]: the argument must be a string. *)
Definition fromisoformat (v : json) : result datetime :=
  match v with
  | JStr s =>
      match parse s with
      | Some d => Ok d
      | None => Raise ValueError
      end
  | _ => Raise TypeError
  end.

(** *** Printing: [datetime.isoformat] *)

Definition digit_char (v : Z) : ascii := ascii_of_N (Z.to_N (48 + v mod 10)).

(** The [n] low decimal digits of [v], as [%0nd] prints a number of at most
    [n] digits. *)
Fixpoint zfill (n : nat) (v : Z) (acc : string) : string :=
  match n with
  | O => acc
  | S n' => zfill n' (v / 10) (String (digit_char v) acc)
  end.

Definition pad (n : nat) (v : Z) : string := zfill n v EmptyString.

Definition format_offset (off : Z) : string :=
  let sign := if off <? 0 then "-" else "+" in
  let a := Z.abs off in
  let us := a mod 1000000 in
  let s := (a / 1000000) mod 60 in
  let m := (a / 60000000) mod 60 in
  let h := a / 3600000000 in
  sign +:+ pad 2 h +:+ ":" +:+ pad 2 m +:+
  (if (s =? 0) && (us =? 0) then ""
   else ":" +:+ pad 2 s +:+ (if us =? 0 then "" else "." +:+ pad 6 us)).

Definition isoformat (d : datetime) : string :=
  pad 4 (year d) +:+ "-" +:+ pad 2 (month d) +:+ "-" +:+ pad 2 (day d) +:+
  "T" +:+ pad 2 (hour d) +:+ ":" +:+ pad 2 (minute d) +:+ ":" +:+
  pad 2 (second d) +:+
  (if microsecond d =? 0 then "" else "." +:+ pad 6 (microsecond d)) +:+
  match tzinfo d with
  | None => ""
  | Some off => format_offset off
  end.

End Datetime.

(** ** The world the job runs in *)

(** A [DataFrame] read with [dtype=str]: a header, and rows whose cells are
    strings or, where [read_csv] found an empty or null field, the missing
    value [NaN] ([None] here). *)
Record table := {
  columns : list string;
  rows : list (list (option string))
}.

(** The metadata file, by what [json.load] makes of its content. *)
Inductive meta_file :=
| Garbled
| Doc (data : json).

Inductive message :=
| JobStarted
| AssumingFirstRun
| SkippingUnchanged (dataset_id : json)
| NoDownloadURL (dataset_id : json)
| NoValidDownloadURL (dataset_id : json)
| Downloading (dataset_id : json)
| Saved (dataset_id : json) (output_file : string)
| FailedToProcess (dataset_id : json) (e : exn)
| JobCompleted (processed : nat).

Inductive event :=
| Printed (m : message)
| Requested (url : json)
| CsvWritten (output_file : string)
| MetadataWritten (last_run : string).

(** What lies outside the program: the configured directory, the catalog
    endpoint, the download of a CSV file, the failure of a write, the text
    Python prints for a value that is not a string, and the clock read by
    [update_last_run_date]. *)
Record Env := {
  OUTPUT_DIR : string;
  catalog : result json;
  read_csv : string -> result table;
  to_csv_error : string -> option exn;
  repr : json -> string;
  now : datetime
}.

(** The content of [METADATA_FILE], the CSV files of the output directory
    by path, and the events so far, oldest first. The two stores are kept
    apart: no output path is [METADATA_FILE], one ending in [.csv] and the
    other in [.json]. *)
Record World := {
  metadata : option meta_file;
  outputs : gmap string table;
  trace : list event
}.

Definition M (A : Type) : Type := World -> result A * World.

Definition ret {A} (a : A) : M A := fun w => (Ok a, w).

Definition bind {A B} (m : M A) (k : A -> M B) : M B :=
  fun w =>
    match m w with
    | (Ok a, w') => k a w'
    | (Raise e, w') => (Raise e, w')
    end.

Definition lift {A} (r : result A) : M A := fun w => (r, w).

Definition emit (e : event) : M unit :=
  fun w => (Ok tt, {| metadata := metadata w; outputs := outputs w;
                      trace := trace w ++ [e] |}).

(** [try: body except Exception as e: handler(e)]. *)
Definition try_except {A} (body : M A) (handler : exn -> M A) : M A :=
  fun w =>
    match body w with
    | (Ok a, w') => (Ok a, w')
    | (Raise e, w') => handler e w'
    end.

Declare Scope etl_scope.
Delimit Scope etl_scope with etl.
Notation "'let*' x := m 'in' k" := (bind m (fun x => k))
  (at level 10, x binder, m at level 100, k at level 200) : etl_scope.
Notation "m ;;; k" := (bind m (fun _ => k))
  (at level 100, k at level 200, right associativity) : etl_scope.

Local Open Scope etl_scope.

(** [log(msg)]. *)
Definition log (m : message) : M unit := emit (Printed m).

(** ** The metadata store *)

Definition METADATA_FILE (env : Env) : string :=
  Py.path_join (OUTPUT_DIR env) "metadata_last_update.json".

(** The body of the [with] statement: [json.load], then
    [datetime.fromisoformat(data.get("last_run"))]. *)
Definition read_last_run (f : meta_file) : result datetime :=
  match f with
  | Garbled => Raise JSONDecodeError
  | Doc data => rbind (Py.get data "last_run") Datetime.fromisoformat
  end.

Definition load_last_update_date : M datetime :=
  fun w =>
    match metadata w with
    | Some f => (read_last_run f, w)
    | None => (emit (Printed AssumingFirstRun) ;;; ret Datetime.min) w
    end.

Definition update_last_run_date (env : Env) : M unit :=
  fun w =>
    let last_run := Datetime.isoformat (now env) in
    (Ok tt,
     {| metadata := Some (Doc (JObj {[ "last_run" := JStr last_run ]}));
        outputs := outputs w;
        trace := trace w ++ [MetadataWritten last_run] |}).

(** ** The catalog client *)

(** The condition of the comprehension on one item:
    [ds.get("theme") and "Hospitals" in ds["theme"]]. *)
Definition is_hospital_dataset (ds : json) : result bool :=
  rbind (Py.get ds "theme") (fun theme =>
    if Py.truthy theme then Py.contains "Hospitals" theme else Ok false).

Fixpoint select (items : list json) : result (list json) :=
  match items with
  | [] => Ok []
  | ds :: tl =>
      rbind (is_hospital_dataset ds) (fun keep =>
        rbind (select tl) (fun kept =>
          Ok (if keep then ds :: kept else kept)))
  end.

Definition fetch_hospital_datasets (env : Env) : result (list json) :=
  rbind (catalog env) (fun datasets =>
    rbind (Py.iter datasets) select).

(** ** The dataset processor *)

(** [f"{v}"]. *)
Definition format (env : Env) (v : json) : string :=
  match v with
  | JStr s => s
  | _ => repr env v
  end.

(** [pd.read_csv(url, dtype=str)]: the argument must name a file or URL. *)
Definition pd_read_csv (env : Env) (url : json) : M table :=
  emit (Requested url) ;;;
  match url with
  | JStr u => lift (read_csv env u)
  | _ => lift (Raise ValueError)
  end.

(** [df.to_csv(output_file, index=False)]: the file is replaced as a whole,
    or the call fails and leaves it as it was. *)
Definition to_csv (env : Env) (output_file : string) (df : table) : M unit :=
  fun w =>
    match to_csv_error env output_file with
    | Some e => (Raise e, w)
    | None =>
        (Ok tt, {| metadata := metadata w;
                   outputs := <[output_file := df]> (outputs w);
                   trace := trace w ++ [CsvWritten output_file] |})
    end.

Definition rename_columns (df : table) : table :=
  {| columns := to_snake_case <$> columns df; rows := rows df |}.

Definition output_path (env : Env) (dataset_id : json) : string :=
  Py.path_join (OUTPUT_DIR env) (format env dataset_id +:+ ".csv").

(** The body of the [try] block. *)
Definition download_and_save (env : Env) (dataset_id download_url : json) : M json :=
  log (Downloading dataset_id) ;;;
  let* df := pd_read_csv env download_url in
  let df := rename_columns df in
  let output_file := output_path env dataset_id in
  to_csv env output_file df ;;;
  log (Saved dataset_id output_file) ;;;
  ret dataset_id.

(** The [try] statement: whatever the body raises is logged and turned into
    [None]. *)
Definition guarded_download (env : Env) (dataset_id download_url : json) : M json :=
  try_except (download_and_save env dataset_id download_url)
    (fun e => log (FailedToProcess dataset_id e) ;;; ret JNull).

Definition process_dataset (env : Env) (dataset : json) (last_run_date : datetime)
    : M json :=
  let* dataset_id := lift (Py.get dataset "identifier") in
  let* modified := lift (Py.get dataset "modified") in
  if negb (Py.truthy dataset_id) || negb (Py.truthy modified) then ret JNull
  else
    let* modified_date := lift (Datetime.fromisoformat modified) in
    let* unchanged := lift (Datetime.le modified_date last_run_date) in
    if unchanged then
      log (SkippingUnchanged dataset_id) ;;; ret JNull
    else
      let* distributions := lift (Py.get_or dataset "distribution" (JArr [])) in
      if negb (Py.truthy distributions) then
        log (NoDownloadURL dataset_id) ;;; ret JNull
      else
        let* first := lift (Py.item0 distributions) in
        let* download_url := lift (Py.get first "downloadURL") in
        if negb (Py.truthy download_url) then
          log (NoValidDownloadURL dataset_id) ;;; ret JNull
        else
          guarded_download env dataset_id download_url.

(** ** The orchestrator *)

(** The worker pool: every submitted task runs to its end, and its outcome,
    a value or an exception, is kept in its future. Whatever [MAX_WORKERS]
    is, the tasks are run here one after the other, in the order of
    submission. *)
Fixpoint run_pool {A} (tasks : list (M A)) : World -> list (result A) * World :=
  fun w =>
    match tasks with
    | [] => ([], w)
    | t :: tl =>
        let '(r, w1) := t w in
        let '(rs, w2) := run_pool tl w1 in
        (r :: rs, w2)
    end.

(** The loop over the futures: [future.result()] returns the value of the
    task or raises again what the task raised; a true value is appended to
    [processed_datasets]. *)
Fixpoint gather (futures : list (result json)) : result (list json) :=
  match futures with
  | [] => Ok []
  | f :: tl =>
      rbind f (fun r =>
        rbind (gather tl) (fun processed =>
          Ok (if Py.truthy r then r :: processed else processed)))
  end.

Definition run_etl_job (env : Env) : M unit :=
  log JobStarted ;;;
  let* last_run_date := load_last_update_date in
  let* cms_provider_hospital_datasets := lift (fetch_hospital_datasets env) in
  let* processed_datasets :=
    (fun w =>
       let '(futures, w') :=
         run_pool ((fun ds => process_dataset env ds last_run_date)
                     <$> cms_provider_hospital_datasets) w in
       (gather futures, w')) in
  update_last_run_date env ;;;
  log (JobCompleted (length processed_datasets)).

(** ** Vocabulary of the statements *)

(** A character of a normalised name: one of the class, or the underscore. *)
Definition name_char (c : ascii) : bool :=
  Str.in_class c || bool_decide (c = "_"%char).

(** A catalog record with the theme the data model gives it: no theme, or a
    list of labels. *)
Definition has_theme (ds : json) (labels : option (list string)) : Prop :=
  ∃ o, ds = JObj o ∧ o !! "theme" = (fun l => JArr (JStr <$> l)) <$> labels.

Definition retained (ds : json) : Prop :=
  ∃ labels, has_theme ds (Some labels) ∧ "Hospitals" ∈ labels.

(** [modified] can be read and ordered against the last run: it is empty,
    or an ISO timestamp that is aware exactly when [last_run] is. *)
Definition modified_comparable (modified : json) (last_run : datetime) : bool :=
  negb (Py.truthy modified) ||
  match Datetime.fromisoformat modified with
  | Ok d => is_ok (Datetime.le d last_run)
  | Raise _ => false
  end.

(** [distribution] is empty, or a list that starts with an object. *)
Definition distribution_listed (distributions : json) : bool :=
  match distributions with
  | JArr (JObj _ :: _) => true
  | v => negb (Py.truthy v)
  end.

(** The record was modified after the last run. *)
Definition newer (o : gmap string json) (last_run : datetime) : Prop :=
  ∃ m, Datetime.fromisoformat (Py.dict_get o "modified") = Ok m ∧
       Datetime.le m last_run = Ok false.

(** The first distribution of the record names a file that downloads as
    [df], and the output file of the record can be written. *)
Definition downloadable (env : Env) (o : gmap string json) (df : table) : Prop :=
  ∃ first rest url,
    o !! "distribution" = Some (JArr (JObj first :: rest)) ∧
    first !! "downloadURL" = Some (JStr url) ∧ url ≠ "" ∧
    read_csv env url = Ok df ∧
    to_csv_error env (output_path env (Py.dict_get o "identifier")) = None.

(** The files written, and the timestamps saved, in a stretch of events. *)
Definition written (events : list event) : list string :=
  omap (fun e => match e with CsvWritten p => Some p | _ => None end) events.

Definition saved (events : list event) : list string :=
  omap (fun e => match e with MetadataWritten ts => Some ts | _ => None end) events.

(** The metadata record holds the timestamp [d]. *)
Definition holds_last_run (f : meta_file) (d : datetime) : Prop :=
  ∃ o s, f = Doc (JObj o) ∧ o !! "last_run" = Some (JStr s) ∧
         Datetime.parse s = Some d.

Definition log_to (w : World) (events : list event) : World :=
  {| metadata := metadata w; outputs := outputs w; trace := trace w ++ events |}.

(** The dataset pass of a run: one task per candidate. *)
Definition dataset_pass (env : Env) (last_run_date : datetime)
    (datasets : list json) : World -> list (result json) * World :=
  run_pool ((fun ds => process_dataset env ds last_run_date) <$> datasets).

(** A character that is neither sign of an offset. *)
Definition plain (c : ascii) : bool :=
  negb (bool_decide (c = "-"%char)) && negb (bool_decide (c = "+"%char)).

(** The fraction of a second as [isoformat] prints it. *)
Definition fraction (us : Z) : string :=
  if us =? 0 then "" else "." +:+ Datetime.pad 6 us.

(** The three ways [process_dataset] ends on a record [o]: an exception
    before anything was done; [None] after log lines only; the identifier
    after the one download and the one write. *)
Inductive outcome (env : Env) (o : gmap string json) (lr : datetime) (w : World)
    : result json -> World -> Prop :=
| Escaped e : outcome env o lr w (Raise e) w
| Skipped new :
    written new = [] -> saved new = [] ->
    outcome env o lr w (Ok JNull) (log_to w new)
| Processed df url :
    Py.truthy (Py.dict_get o "identifier") = true ->
    newer o lr ->
    downloadable env o df ->
    outcome env o lr w (Ok (Py.dict_get o "identifier"))
      {| metadata := metadata w;
         outputs := <[output_path env (Py.dict_get o "identifier")
                        := rename_columns df]> (outputs w);
         trace := trace w ++
           [Printed (Downloading (Py.dict_get o "identifier"));
            Requested (JStr url);
            CsvWritten (output_path env (Py.dict_get o "identifier"));
            Printed (Saved (Py.dict_get o "identifier")
                       (output_path env (Py.dict_get o "identifier")))] |}.

(** ** Sample inputs *)

Module Sample.

Definition first_january : datetime :=
  {| year := 2024; month := 1; day := 1;
     hour := 0; minute := 0; second := 0; microsecond := 0; tzinfo := None |}.

Definition beds : table :=
  {| columns := ["Facility ID"; "Hospital Name"; "Beds (total)"];
     rows := [[Some "010001"; Some "Southeast Health"; Some "420"]] |}.

(** A reachable catalog and downloads that succeed. *)
Definition online (records : list json) : Env :=
  {| OUTPUT_DIR := "cms_provider_hospitals_csv_output";
     catalog := Ok (JArr records);
     read_csv := fun _ => Ok beds;
     to_csv_error := fun _ => None;
     repr := fun _ => "";
     now := first_january |}.

(** The same with every download failing. *)
Definition unreachable_files (records : list json) : Env :=
  {| OUTPUT_DIR := "cms_provider_hospitals_csv_output";
     catalog := Ok (JArr records);
     read_csv := fun _ => Raise RequestException;
     to_csv_error := fun _ => None;
     repr := fun _ => "";
     now := first_january |}.

Definition first_run : World :=
  {| metadata := None; outputs := ∅; trace := [] |}.

(** A metadata file that is not JSON, and one whose timestamp is not one. *)
Definition garbled_run : World :=
  {| metadata := Some Garbled; outputs := ∅; trace := [] |}.

Definition misdated_run : World :=
  {| metadata := Some (Doc (JObj {[ "last_run" := JStr "soon" ]}));
     outputs := ∅; trace := [] |}.

Definition after_run (last_run : string) : World :=
  {| metadata := Some (Doc (JObj {[ "last_run" := JStr last_run ]}));
     outputs := ∅; trace := [] |}.

Definition record (identifier modified : string) (theme : list string)
    (urls : list string) : gmap string json :=
  <[ "identifier" := JStr identifier ]>
    (<[ "modified" := JStr modified ]>
       (<[ "theme" := JArr (JStr <$> theme) ]>
          (<[ "distribution" :=
                JArr ((fun u => JObj {[ "downloadURL" := JStr u ]}) <$> urls) ]>
             ∅))).

Definition hospitals : json :=
  JObj (record "xubh-q36u" "2024-01-05" ["Hospitals"]
          ["https://data.cms.gov/xubh-q36u.csv"]).

Definition general_hospitals : json :=
  JObj (record "yv7e-xc69" "2024-01-05" ["General Hospitals"; "Other"]
          ["https://data.cms.gov/yv7e-xc69.csv"]).

Definition clinics : json :=
  JObj (record "4pq5-n9py" "2024-01-05" ["Clinics"]
          ["https://data.cms.gov/4pq5-n9py.csv"]).

Definition no_theme : json :=
  JObj (delete "theme" (record "77hc-ibv8" "2024-01-05" []
                          ["https://data.cms.gov/77hc-ibv8.csv"])).

Definition one_second_later : datetime :=
  {| year := 2024; month := 1; day := 1;
     hour := 0; minute := 0; second := 1; microsecond := 0; tzinfo := None |}.

Definition url : string := "https://data.cms.gov/xubh-q36u.csv".

(** Modified at the last run, and one second after it. *)
Definition unchanged : gmap string json :=
  record "xubh-q36u" "2024-01-01T00:00:00" ["Hospitals"] [url].

Definition changed : gmap string json :=
  record "xubh-q36u" "2024-01-01T00:00:01" ["Hospitals"] [url].

(** Changed, with an empty identifier. *)
Definition unnamed : gmap string json :=
  record "" "2024-01-01T00:00:01" ["Hospitals"] [url].

(** Changed, with an empty [modified]. *)
Definition undated : gmap string json :=
  record "xubh-q36u" "" ["Hospitals"] [url].

(** [modified] is not a timestamp. *)
Definition misdated : gmap string json :=
  record "xubh-q36u" "last Tuesday" ["Hospitals"] [url].

(** Changed, with no distribution listed. *)
Definition undistributed : gmap string json :=
  record "xubh-q36u" "2024-01-01T00:00:01" ["Hospitals"] [].

(** A run that finds nothing new: the one record of the catalog was modified
    at the last run. *)
Definition quiet_catalog : Env := online [JObj unchanged].

Definition second_run : World := after_run "2024-01-01T00:00:00".

(** [modified] carries an offset from UTC. *)
Definition zoned : gmap string json :=
  record "xubh-q36u" "2024-01-05T00:00:00+00:00" ["Hospitals"] [url].

(** The catalog cannot be reached. *)
Definition offline : Env :=
  {| OUTPUT_DIR := "cms_provider_hospitals_csv_output";
     catalog := Raise RequestException;
     read_csv := fun _ => Raise RequestException;
     to_csv_error := fun _ => None;
     repr := fun _ => "";
     now := first_january |}.

(** One record changed since the last run, one not. *)
Definition mixed_catalog : Env :=
  online [JObj changed; JObj unchanged].

(** A record whose [modified] cannot be read, before one that changed. *)
Definition troubled_catalog : Env :=
  online [JObj misdated; JObj changed].

End Sample.

(** * Properties *)

(** ** The name normaliser *)

Section Normaliser.

Local Abbreviation F := (Str.re_sub_plus Str.out_class "_" false).
Local Abbreviation T := (Str.re_sub_plus Str.out_class "_" true).

Lemma name_char_not_space c : name_char c = true -> Str.is_space c = false.
Proof.
  destruct c as [[] [] [] [] [] [] [] []]; vm_compute; congruence.
Qed.

Lemma name_char_lower c : name_char c = true -> Str.lower_char c = c.
Proof.
  destruct c as [[] [] [] [] [] [] [] []]; vm_compute; congruence.
Qed.

Lemma name_char_inside c : Str.out_class c = false -> name_char c = true.
Proof.
  unfold Str.out_class, name_char. intros H%negb_false_iff. by rewrite H.
Qed.

Lemma F_outside c r :
  Str.out_class c = true -> F (String c r) = String "_" (T r).
Proof. intros H. simpl. by rewrite H. Qed.

Lemma T_outside c r : Str.out_class c = true -> T (String c r) = T r.
Proof. intros H. simpl. by rewrite H. Qed.

Lemma re_sub_plus_inside b c r :
  Str.out_class c = false ->
  Str.re_sub_plus Str.out_class "_" b (String c r) = String c (F r).
Proof. intros H. simpl. by rewrite H. Qed.

Lemma re_sub_plus_name_chars b s :
  Str.all name_char (Str.re_sub_plus Str.out_class "_" b s) = true.
Proof.
  revert b. induction s as [|c r IH]; intros b; simpl; [done|].
  destruct (Str.out_class c) eqn:Hc.
  - destruct b; [apply IH|]. change (name_char "_" && Str.all name_char (T r) = true).
    by rewrite IH.
  - simpl. by rewrite (name_char_inside _ Hc), IH.
Qed.

Lemma lower_name_chars s : Str.all name_char s = true -> Str.lower s = s.
Proof.
  induction s as [|c r IH]; simpl; [done|].
  intros [Hc Hr]%andb_true_iff. by rewrite name_char_lower, IH.
Qed.

Lemma rstrip_name_chars s : Str.all name_char s = true -> Str.rstrip s = s.
Proof.
  induction s as [|c r IH]; simpl; [done|].
  intros [Hc Hr]%andb_true_iff. rewrite (IH Hr).
  destruct r; [|done]. by rewrite (name_char_not_space _ Hc).
Qed.

(** On a string of name characters [strip] finds nothing to remove. *)
Lemma strip_name_chars s : Str.all name_char s = true -> Str.strip s = s.
Proof.
  intros H. unfold Str.strip.
  assert (Str.lstrip s = s) as ->.
  { destruct s as [|c r]; simpl in *; [done|].
    apply andb_true_iff in H as [Hc _].
    by rewrite (name_char_not_space _ Hc). }
  by apply rstrip_name_chars.
Qed.

Lemma drop_space_name_chars l :
  Forall (fun c => name_char c = true) l -> Reference.drop_space l = l.
Proof.
  destruct 1 as [|c l Hc _]; simpl; [done|].
  by rewrite (name_char_not_space _ Hc).
Qed.

Lemma all_Forall s :
  Str.all name_char s = true ->
  Forall (fun c => name_char c = true) (String.list_ascii_of_string s).
Proof.
  induction s as [|c r IH]; simpl; [constructor|].
  intros [Hc Hr]%andb_true_iff. constructor; auto.
Qed.

Lemma trim_name_chars s : Str.all name_char s = true -> Reference.trim s = s.
Proof.
  intros H%all_Forall. unfold Reference.trim.
  rewrite (drop_space_name_chars _ H).
  rewrite drop_space_name_chars by (by apply Forall_rev).
  by rewrite rev_involutive, String.string_of_list_ascii_of_string.
Qed.

(** The scanner against the runs: outside a match it replaces every run;
    inside one, the run it stands in has been replaced already. *)
Lemma re_sub_plus_runs s :
  F s = Reference.join (Reference.replace_run <$> Reference.runs s) /\
  T s = match Reference.runs s with
        | (true, _) :: tl => Reference.join (Reference.replace_run <$> tl)
        | l => Reference.join (Reference.replace_run <$> l)
        end.
Proof.
  induction s as [|c r [IHF IHT]]; simpl; [done|].
  destruct (Str.out_class c) eqn:Hc.
  - rewrite IHT. destruct (Reference.runs r) as [|[[] w] tl]; simpl; done.
  - rewrite IHF. destruct (Reference.runs r) as [|[[] w] tl]; simpl; done.
Qed.

(** A second pass of the scanner changes nothing. *)
Lemma re_sub_plus_idem s : F (F s) = F s /\ T (T s) = T s.
Proof.
  induction s as [|c r [IHF IHT]]; [done|].
  destruct (Str.out_class c) eqn:Hc.
  - rewrite (F_outside _ _ Hc), (T_outside _ _ Hc).
    rewrite F_outside by done. by rewrite IHT.
  - rewrite !(re_sub_plus_inside _ _ _ Hc). by rewrite IHF.
Qed.

End Normaliser.

(** C3, at the second name of the claim: the blanks at both ends and the
    closing punctuation have become underscores before [strip] runs, and
    [strip] removes no underscore. *)
Lemma hospital_name_keeps_underscores :
  to_snake_case "  Hospital--Name!!  " = "_hospital_name_" ∧
  to_snake_case "  Hospital--Name!!  " ≠ "hospital_name".
Proof. by vm_compute. Qed.

(** C3, amended: ["Facility ID"] becomes ["facility_id"]; a run of
    punctuation inside a name becomes one underscore, and so does a run that
    ends it: ["Hospital--Name!!"] becomes ["hospital_name_"]. *)
Theorem to_snake_case_examples :
  to_snake_case "Facility ID" = "facility_id" ∧
  to_snake_case "Hospital--Name!!" = "hospital_name_".
Proof. by vm_compute. Qed.

(** C4: [to_snake_case] computes the reference algorithm: lowercase, one
    underscore for every maximal run outside [a-z0-9], white space (not
    underscores) trimmed from the result. *)
Theorem to_snake_case_refines_reference (s : string) :
  to_snake_case s = Reference.normalize s.
Proof.
  unfold to_snake_case, Reference.normalize, Str.re_sub.
  rewrite strip_name_chars by apply re_sub_plus_name_chars.
  destruct (re_sub_plus_runs (Str.lower s)) as [<- _].
  by rewrite trim_name_chars by apply re_sub_plus_name_chars.
Qed.

(** C7: [to_snake_case] is idempotent. *)
Theorem to_snake_case_idempotent (x : string) :
  to_snake_case (to_snake_case x) = to_snake_case x.
Proof.
  unfold to_snake_case, Str.re_sub.
  pose proof (re_sub_plus_name_chars false (Str.lower x)) as Hx.
  rewrite (strip_name_chars _ Hx), (lower_name_chars _ Hx).
  destruct (re_sub_plus_idem (Str.lower x)) as [-> _].
  by apply strip_name_chars.
Qed.

(** ** The catalog client *)

Section Catalog.

Lemma str_eq_spec s v : Py.str_eq s v = true <-> v = JStr s.
Proof.
  destruct v; simpl; try (split; [discriminate|congruence]).
  rewrite String.eqb_eq. split; [by intros ->|congruence].
Qed.

Lemma existsb_str_eq s (l : list string) :
  existsb (Py.str_eq s) (JStr <$> l) = bool_decide (s ∈ l).
Proof.
  induction l as [|t l IH].
  - symmetry. apply bool_decide_eq_false_2, not_elem_of_nil.
  - change (String.eqb s t || existsb (Py.str_eq s) (JStr <$> l)
            = bool_decide (s ∈ t :: l)).
    rewrite IH. destruct (String.eqb_spec s t) as [<-|E].
    + symmetry. apply bool_decide_eq_true_2. by left.
    + apply bool_decide_ext. rewrite elem_of_cons. naive_solver.
Qed.

Lemma has_theme_inj ds a b : has_theme ds a -> has_theme ds b -> a = b.
Proof.
  intros (o & -> & Ha) (o' & Heq & Hb). injection Heq as <-.
  rewrite Ha in Hb.
  destruct a as [la|], b as [lb|]; simpl in Hb; try discriminate; [|done].
  injection Hb as Hb. f_equal. clear Ha. revert lb Hb.
  induction la as [|s la IH]; intros [|t lb] Hb; simpl in Hb;
    try discriminate; [done|].
  injection Hb as -> Hb. f_equal. by apply IH.
Qed.

(** On a record of the data model the condition of the comprehension is
    membership of the label among the theme labels. *)
Lemma is_hospital_dataset_typed ds labels :
  has_theme ds labels ->
  is_hospital_dataset ds =
    Ok (match labels with
        | Some l => bool_decide ("Hospitals" ∈ l)
        | None => false
        end).
Proof.
  intros (o & -> & Ho). unfold is_hospital_dataset, Py.get, Py.dict_get.
  simpl. rewrite Ho. destruct labels as [[|t l]|]; simpl; [done| |done].
  f_equal. apply (existsb_str_eq "Hospitals" (t :: l)).
Qed.

Lemma is_hospital_dataset_retained ds labels :
  has_theme ds labels ->
  ∃ keep, is_hospital_dataset ds = Ok keep ∧ (keep = true <-> retained ds).
Proof.
  intros H. eexists. split; [by apply is_hospital_dataset_typed|].
  destruct labels as [l|].
  - rewrite bool_decide_eq_true. split; [by exists l|].
    intros (l' & H' & ?). by rewrite (inj Some _ _ (has_theme_inj _ _ _ H H')).
  - split; [done|]. intros (l' & H' & _).
    by pose proof (has_theme_inj _ _ _ H H').
Qed.

Lemma select_typed items :
  Forall (fun ds => ∃ labels, has_theme ds labels) items ->
  ∃ kept, select items = Ok kept ∧ kept `sublist_of` items ∧
          ∀ ds, ds ∈ kept <-> ds ∈ items ∧ retained ds.
Proof.
  induction 1 as [|ds items [labels Hds] _ (kept & Hsel & Hsub & Hin)]; simpl.
  - exists []. split_and!; [done..|]. intros ds. rewrite elem_of_nil. tauto.
  - destruct (is_hospital_dataset_retained _ _ Hds) as (keep & -> & Hkeep).
    rewrite Hsel. simpl. eexists. split; [done|].
    destruct keep.
    + split; [by constructor|]. intros x. rewrite !elem_of_cons, Hin.
      destruct Hkeep as [Hk _]. specialize (Hk eq_refl). naive_solver.
    + split; [by constructor|]. intros x. rewrite elem_of_cons, Hin.
      split; [tauto|]. intros [[->|?] Hx]; [|done].
      by apply Hkeep in Hx.
Qed.

End Catalog.

(** C1, at the record of the claim: ["General Hospitals"] contains the
    text ["Hospitals"], and yet the record is not retained. *)
Lemma general_hospitals_not_retained :
  has_theme Sample.general_hospitals (Some ["General Hospitals"; "Other"]) ∧
  Str.contains "Hospitals" "General Hospitals" = true ∧
  fetch_hospital_datasets (Sample.online [Sample.general_hospitals]) = Ok [].
Proof.
  split; [|by vm_compute].
  eexists. split; [reflexivity|]. by vm_compute.
Qed.

(** C1, amended: of the records the catalog returns, [fetch_hospital_datasets]
    keeps, in the order of the catalog, those whose theme is present and has
    a label equal to ["Hospitals"]. *)
Theorem fetch_hospital_datasets_keeps_label (env : Env) (items : list json) :
  catalog env = Ok (JArr items) ->
  Forall (fun ds => ∃ labels, has_theme ds labels) items ->
  ∃ kept,
    fetch_hospital_datasets env = Ok kept ∧
    kept `sublist_of` items ∧
    ∀ ds, ds ∈ kept <->
          ds ∈ items ∧
          ∃ labels, has_theme ds (Some labels) ∧ "Hospitals" ∈ labels.
Proof.
  intros Hcat Hitems. unfold fetch_hospital_datasets. rewrite Hcat. simpl.
  by apply select_typed.
Qed.

Lemma fetch_hospital_datasets_keeps_label_witness :
  ∃ kept,
    fetch_hospital_datasets
      (Sample.online [Sample.hospitals; Sample.general_hospitals;
                      Sample.clinics; Sample.no_theme]) = Ok kept ∧
    kept `sublist_of` [Sample.hospitals; Sample.general_hospitals;
                       Sample.clinics; Sample.no_theme] ∧
    ∀ ds, ds ∈ kept <->
          ds ∈ [Sample.hospitals; Sample.general_hospitals;
                Sample.clinics; Sample.no_theme] ∧
          ∃ labels, has_theme ds (Some labels) ∧ "Hospitals" ∈ labels.
Proof.
  apply (fetch_hospital_datasets_keeps_label
           (Sample.online [Sample.hospitals; Sample.general_hospitals;
                           Sample.clinics; Sample.no_theme])).
  - reflexivity.
  - repeat constructor.
    + exists (Some ["Hospitals"]). eexists. split; [reflexivity|]. by vm_compute.
    + exists (Some ["General Hospitals"; "Other"]).
      eexists. split; [reflexivity|]. by vm_compute.
    + exists (Some ["Clinics"]). eexists. split; [reflexivity|]. by vm_compute.
    + exists None. eexists. split; [reflexivity|]. by vm_compute.
Defined.

(** ** The dataset processor *)

Section Processor.
Context (env : Env).

(** What the guarded block leaves behind. *)
Lemma guarded_download_eq dataset_id download_url w :
  guarded_download env dataset_id download_url w =
  let output_file := output_path env dataset_id in
  let failed e :=
    (Ok JNull,
     log_to w [Printed (Downloading dataset_id); Requested download_url;
               Printed (FailedToProcess dataset_id e)]) in
  match download_url with
  | JStr u =>
      match read_csv env u with
      | Ok df =>
          match to_csv_error env output_file with
          | None =>
              (Ok dataset_id,
               {| metadata := metadata w;
                  outputs := <[output_file := rename_columns df]> (outputs w);
                  trace := trace w ++
                    [Printed (Downloading dataset_id); Requested download_url;
                     CsvWritten output_file;
                     Printed (Saved dataset_id output_file)] |})
          | Some e => failed e
          end
      | Raise e => failed e
      end
  | _ => failed ValueError
  end.
Proof.
  unfold guarded_download, try_except, download_and_save, pd_read_csv, to_csv,
    log, emit, bind, lift, ret, log_to.
  destruct download_url as [| | |u| |]; simpl; rewrite <- ?app_assoc; try done.
  destruct (read_csv env u); simpl; rewrite <- ?app_assoc; [|done].
  destruct (to_csv_error _ _); simpl; by rewrite <- ?app_assoc.
Qed.

(** The function with its early returns laid out. *)
Lemma process_dataset_eq o lr w :
  process_dataset env (JObj o) lr w =
  let dataset_id := Py.dict_get o "identifier" in
  let modified := Py.dict_get o "modified" in
  if negb (Py.truthy dataset_id) || negb (Py.truthy modified)
  then (Ok JNull, w)
  else
    match Datetime.fromisoformat modified with
    | Raise e => (Raise e, w)
    | Ok modified_date =>
        match Datetime.le modified_date lr with
        | Raise e => (Raise e, w)
        | Ok true => (Ok JNull, log_to w [Printed (SkippingUnchanged dataset_id)])
        | Ok false =>
            let distributions := Py.dict_get_or o "distribution" (JArr []) in
            if negb (Py.truthy distributions)
            then (Ok JNull, log_to w [Printed (NoDownloadURL dataset_id)])
            else
              match Py.item0 distributions with
              | Raise e => (Raise e, w)
              | Ok first =>
                  match Py.get first "downloadURL" with
                  | Raise e => (Raise e, w)
                  | Ok download_url =>
                      if negb (Py.truthy download_url)
                      then (Ok JNull,
                            log_to w [Printed (NoValidDownloadURL dataset_id)])
                      else guarded_download env dataset_id download_url w
                  end
              end
        end
    end.
Proof.
  unfold process_dataset, bind, lift, ret, log, emit, log_to, Py.get, Py.get_or.
  cbv zeta.
  destruct (negb _ || negb _); [done|].
  destruct (Datetime.fromisoformat _); [|done].
  destruct (Datetime.le _ _) as [[]|]; [done| |done].
  destruct (negb _); [done|].
  destruct (Py.item0 _) as [first|]; [|done].
  destruct first; try done.
  by destruct (negb _).
Qed.

Lemma fromisoformat_truthy v d :
  Datetime.fromisoformat v = Ok d -> Py.truthy v = true.
Proof. destruct v as [| | |[|c s]| |]; try done. Qed.

(** Whatever happens, the worker appends to the trace, leaves the metadata
    file alone and saves no timestamp. *)
Lemma guarded_download_appends dataset_id download_url w :
  ∃ r new,
    (guarded_download env dataset_id download_url w).1 = Ok r ∧
    trace (guarded_download env dataset_id download_url w).2 = trace w ++ new ∧
    metadata (guarded_download env dataset_id download_url w).2 = metadata w ∧
    saved new = [].
Proof.
  rewrite guarded_download_eq. cbv zeta.
  repeat case_match; simpl; eauto 10.
Qed.

Lemma process_dataset_appends ds lr w :
  ∃ new,
    trace (process_dataset env ds lr w).2 = trace w ++ new ∧
    metadata (process_dataset env ds lr w).2 = metadata w ∧
    saved new = [].
Proof.
  assert (∃ new, trace w = trace w ++ new ∧ metadata w = metadata w ∧
                 saved new = []) as Hnil.
  { exists []. by rewrite app_nil_r. }
  destruct ds as [| | | | |o]; try exact Hnil.
  rewrite process_dataset_eq. cbv zeta.
  repeat case_match; simpl; try exact Hnil; try (by eexists).
  match goal with
  | |- context [guarded_download env ?i ?u w] =>
      destruct (guarded_download_appends i u w) as (r & new & _ & ? & ? & ?)
  end.
  by exists new.
Qed.

(** The one path through the worker that writes a file. *)
Lemma process_dataset_fresh o lr w df :
  Py.truthy (Py.dict_get o "identifier") = true ->
  newer o lr ->
  downloadable env o df ->
  let dataset_id := Py.dict_get o "identifier" in
  let output_file := output_path env dataset_id in
  ∃ url,
  process_dataset env (JObj o) lr w =
    (Ok dataset_id,
     {| metadata := metadata w;
        outputs := <[output_file := rename_columns df]> (outputs w);
        trace := trace w ++
          [Printed (Downloading dataset_id); Requested (JStr url);
           CsvWritten output_file; Printed (Saved dataset_id output_file)] |}).
Proof.
  intros Hid (m & Hm & Hle) (first & rest & url & Hdist & Hurl & Hne & Hread & Hwrite).
  exists url. rewrite process_dataset_eq. cbv zeta.
  rewrite Hid, (fromisoformat_truthy _ _ Hm), Hm, Hle.
  unfold Py.dict_get_or. rewrite Hdist.
  cbn [default from_option id negb orb Py.truthy Py.item0 Py.get].
  assert (Py.dict_get first "downloadURL" = JStr url) as ->.
  { unfold Py.dict_get. by rewrite Hurl. }
  cbn [Py.truthy]. destruct (String.eqb_spec url "") as [|_]; [done|].
  cbn [negb]. rewrite guarded_download_eq. cbv beta iota zeta.
  by rewrite Hread, Hwrite.
Qed.

Lemma first_download_url dist first download_url :
  Py.item0 dist = Ok first ->
  Py.get first "downloadURL" = Ok download_url ->
  ∃ o rest, dist = JArr (JObj o :: rest) ∧
            download_url = Py.dict_get o "downloadURL".
Proof.
  destruct dist as [| | |[|c s]|[|x l]|]; try done; intros [= <-]; [done|].
  destruct x; try done. intros [= <-]. eauto.
Qed.

(** Every other path leaves the output directory as it was. *)
Lemma process_dataset_written o lr w :
  let dataset_id := Py.dict_get o "identifier" in
  let output_file := output_path env dataset_id in
  let w' := (process_dataset env (JObj o) lr w).2 in
  ∃ new,
    trace w' = trace w ++ new ∧
    ((∃ df, Py.truthy dataset_id = true ∧ newer o lr ∧ downloadable env o df ∧
            written new = [output_file] ∧
            outputs w' = <[output_file := rename_columns df]> (outputs w)) ∨
     (¬ (Py.truthy dataset_id = true ∧ newer o lr ∧ ∃ df, downloadable env o df) ∧
      written new = [] ∧ outputs w' = outputs w)).
Proof.
  intros dataset_id output_file w'. subst w'.
  set (fresh := Py.truthy dataset_id = true ∧ newer o lr ∧
                ∃ df, downloadable env o df).
  assert (¬ fresh ->
    ∃ new, trace w = trace w ++ new ∧
      ((∃ df, Py.truthy dataset_id = true ∧ newer o lr ∧ downloadable env o df ∧
              written new = [output_file] ∧
              outputs w = <[output_file := rename_columns df]> (outputs w)) ∨
       (¬ fresh ∧ written new = [] ∧ outputs w = outputs w))) as Hnil.
  { intros HP. exists []. rewrite app_nil_r. split; [done|]. by right. }
  assert (∀ m, ¬ fresh ->
    ∃ new, trace (log_to w [Printed m]) = trace w ++ new ∧
      ((∃ df, Py.truthy dataset_id = true ∧ newer o lr ∧ downloadable env o df ∧
              written new = [output_file] ∧
              outputs (log_to w [Printed m])
                = <[output_file := rename_columns df]> (outputs w)) ∨
       (¬ fresh ∧ written new = [] ∧ outputs (log_to w [Printed m]) = outputs w)))
    as Hlog.
  { intros m HP. eexists. split; [reflexivity|]. by right. }
  rewrite process_dataset_eq. cbv zeta. fold dataset_id.
  destruct (Py.truthy dataset_id) eqn:Hid; cycle 1.
  { apply Hnil. intros [? _]. congruence. }
  destruct (Py.truthy (Py.dict_get o "modified")) eqn:Hmod; cycle 1.
  { apply Hnil. intros (_ & (m & Hm & _) & _).
    by rewrite (fromisoformat_truthy _ _ Hm) in Hmod. }
  cbn [negb orb].
  destruct (Datetime.fromisoformat _) as [m|e] eqn:Hm; cycle 1.
  { apply Hnil. intros (_ & (m' & Hm' & _) & _). congruence. }
  destruct (Datetime.le m lr) as [[]|e] eqn:Hle.
  { apply Hlog. intros (_ & (m' & Hm' & Hle') & _). congruence. }
  2:{ apply Hnil. intros (_ & (m' & Hm' & Hle') & _). congruence. }
  unfold Py.dict_get_or.
  destruct (o !! "distribution") as [dist|] eqn:Hdist; cycle 1.
  { apply Hlog. intros (_ & _ & df & first & rest & url & Hd & _). congruence. }
  cbn [default from_option id].
  destruct (Py.truthy dist) eqn:Hdt; cycle 1.
  { apply Hlog. intros (_ & _ & df & first & rest & url & Hd & _).
    rewrite Hdist in Hd. by injection Hd as ->. }
  cbn [negb].
  destruct (Py.item0 dist) as [first|e] eqn:Hfirst; cycle 1.
  { apply Hnil. intros (_ & _ & df & first & rest & url & Hd & _).
    rewrite Hdist in Hd. by injection Hd as ->. }
  destruct (Py.get first "downloadURL") as [download_url|e] eqn:Hurl; cycle 1.
  { apply Hnil. intros (_ & _ & df & first' & rest & url & Hd & _).
    rewrite Hdist in Hd. injection Hd as ->. by injection Hfirst as <-. }
  destruct (first_download_url _ _ _ Hfirst Hurl) as (d & rest & -> & ->).
  clear Hfirst Hurl Hdt.
  assert (∀ df, downloadable env o df ->
            ∃ url, d !! "downloadURL" = Some (JStr url) ∧ url ≠ "" ∧
                   read_csv env url = Ok df ∧
                   to_csv_error env output_file = None) as Hdl.
  { intros df (first' & rest' & url & Hd & ?). rewrite Hdist in Hd.
    injection Hd as <- <-. by exists url. }
  destruct (Py.truthy (Py.dict_get d "downloadURL")) eqn:Hu; cycle 1.
  { apply Hlog. intros (_ & _ & df & (url & Hd & Hne & _)%Hdl).
    unfold Py.dict_get in Hu. rewrite Hd in Hu. simpl in Hu.
    by destruct (String.eqb_spec url ""). }
  cbn [negb]. rewrite guarded_download_eq. cbv zeta.
  fold output_file.
  assert (∀ e, ¬ fresh ->
    let w' := log_to w [Printed (Downloading dataset_id);
                        Requested (Py.dict_get d "downloadURL");
                        Printed (FailedToProcess dataset_id e)] in
    ∃ new, trace w' = trace w ++ new ∧
      ((∃ df, true = true ∧ newer o lr ∧ downloadable env o df ∧
              written new = [output_file] ∧
              outputs w' = <[output_file := rename_columns df]> (outputs w)) ∨
       (¬ fresh ∧ written new = [] ∧ outputs w' = outputs w)))
    as Hfail.
  { intros e HP. eexists. split; [reflexivity|]. by right. }
  destruct (Py.dict_get d "downloadURL") as [| | |u| |] eqn:Hget;
    try (apply Hfail; intros (_ & _ & df & (url & Hd & _)%Hdl);
         unfold Py.dict_get in Hget; rewrite Hd in Hget; done).
  assert (d !! "downloadURL" = Some (JStr u)) as Hd.
  { unfold Py.dict_get in Hget. destruct (d !! "downloadURL"); by simplify_eq/=. }
  destruct (read_csv env u) as [df|e] eqn:Hread; cycle 1.
  { apply Hfail. intros (_ & _ & df & (url & Hd' & _ & Hr & _)%Hdl). congruence. }
  destruct (to_csv_error env output_file) as [e|] eqn:Hwrite.
  { apply Hfail. intros (_ & _ & df' & (url & _ & _ & _ & Hw)%Hdl). congruence. }
  eexists. split; [reflexivity|]. left. exists df.
  split_and!; try done.
  - by exists m.
  - exists d, rest, u. split_and!; try done. by intros ->.
Qed.
End Processor.

(** C2, at a record whose [modified] is not a timestamp: the parse happens
    before the [try] statement, so [ValueError] leaves [process_dataset],
    comes out of [future.result()] and ends the run before the timestamp is
    saved. *)
Lemma malformed_modified_escapes :
  process_dataset (Sample.online [JObj Sample.misdated]) (JObj Sample.misdated)
    Datetime.min Sample.first_run
  = (Raise ValueError, Sample.first_run) ∧
  (run_etl_job (Sample.online [JObj Sample.misdated]) Sample.first_run).1
  = Raise ValueError ∧
  metadata (run_etl_job (Sample.online [JObj Sample.misdated]) Sample.first_run).2
  = None.
Proof. by vm_compute. Qed.

(** What the [try] statement does contain: on a record whose [modified] is
    empty or a timestamp that can be ordered against the last run, and whose
    [distribution] is empty or a list that starts with an object,
    [process_dataset] raises nothing: it returns [None] or the identifier.
    Whatever the download, the parse or the write raises is caught, logged,
    and returned as [None] with the output directory untouched. *)
Theorem process_dataset_contains_download_failures
    (env : Env) (o : gmap string json) (lr : datetime) (w : World) :
  modified_comparable (Py.dict_get o "modified") lr = true ->
  distribution_listed (Py.dict_get_or o "distribution" (JArr [])) = true ->
  (∃ r w', process_dataset env (JObj o) lr w = (Ok r, w') ∧
           (r = JNull ∨ r = Py.dict_get o "identifier")) ∧
  (∀ dataset_id download_url w0,
     ∃ r w', guarded_download env dataset_id download_url w0 = (Ok r, w') ∧
       (r = dataset_id ∨
        (r = JNull ∧ outputs w' = outputs w0 ∧
         ∃ e, trace w' = trace w0 ++
                [Printed (Downloading dataset_id); Requested download_url;
                 Printed (FailedToProcess dataset_id e)]))).
Proof.
  intros Hmod Hdist.
  assert (∀ dataset_id download_url w0,
     ∃ r w', guarded_download env dataset_id download_url w0 = (Ok r, w') ∧
       (r = dataset_id ∨
        (r = JNull ∧ outputs w' = outputs w0 ∧
         ∃ e, trace w' = trace w0 ++
                [Printed (Downloading dataset_id); Requested download_url;
                 Printed (FailedToProcess dataset_id e)]))) as Hguard.
  { intros dataset_id download_url w0. rewrite guarded_download_eq. cbv zeta.
    repeat case_match; eauto 10. }
  split; [|exact Hguard].
  rewrite process_dataset_eq. cbv zeta.
  unfold modified_comparable in Hmod.
  destruct (negb (Py.truthy (Py.dict_get o "identifier"))); [by eauto|].
  destruct (negb (Py.truthy (Py.dict_get o "modified"))); [by eauto|].
  cbn [orb] in *.
  destruct (Datetime.fromisoformat _) as [m|]; [|done].
  destruct (Datetime.le m lr) as [[]|]; [by eauto| |done].
  unfold distribution_listed in Hdist.
  destruct (negb (Py.truthy (Py.dict_get_or o "distribution" (JArr []))))
    eqn:Hfalsy; [by eauto|].
  destruct (Py.dict_get_or o "distribution" (JArr []))
    as [| | | |[|[| | | | |first] rest]|]; try done.
  cbn [Py.item0 Py.get].
  destruct (negb (Py.truthy (Py.dict_get first "downloadURL"))); [by eauto|].
  destruct (Hguard (Py.dict_get o "identifier")
              (Py.dict_get first "downloadURL") w) as (r & w' & -> & [->|[-> _]]);
    eauto.
Qed.

Lemma process_dataset_contains_download_failures_witness :
  (∃ r w',
     process_dataset (Sample.unreachable_files []) (JObj Sample.changed)
       Sample.first_january Sample.first_run = (Ok r, w') ∧
     (r = JNull ∨ r = Py.dict_get Sample.changed "identifier")) ∧
  (∀ dataset_id download_url w0,
     ∃ r w', guarded_download (Sample.unreachable_files []) dataset_id
               download_url w0 = (Ok r, w') ∧
       (r = dataset_id ∨
        (r = JNull ∧ outputs w' = outputs w0 ∧
         ∃ e, trace w' = trace w0 ++
                [Printed (Downloading dataset_id); Requested download_url;
                 Printed (FailedToProcess dataset_id e)]))).
Proof.
  apply (process_dataset_contains_download_failures
           (Sample.unreachable_files []) Sample.changed
           Sample.first_january Sample.first_run).
  - vm_compute. reflexivity.
  - vm_compute. reflexivity.
Defined.

(** C5, at a record whose identifier is present and empty: it was modified
    one second after the last run, its distribution is valid, the download
    and the write would succeed, and it is skipped all the same. *)
Lemma empty_identifier_not_processed :
  Sample.unnamed !! "identifier" = Some (JStr "") ∧
  Datetime.fromisoformat (Py.dict_get Sample.unnamed "modified")
  = Ok Sample.one_second_later ∧
  Datetime.le Sample.one_second_later Sample.first_january = Ok false ∧
  downloadable (Sample.online []) Sample.unnamed Sample.beds ∧
  process_dataset (Sample.online []) (JObj Sample.unnamed)
    Sample.first_january Sample.first_run
  = (Ok JNull, Sample.first_run).
Proof.
  split_and!; try by vm_compute.
  eexists _, _, Sample.url. split_and!; by vm_compute.
Qed.

(** C5, amended: for a record with a non-empty identifier and a [modified]
    timestamp, [process_dataset] returns [None] without any download or write
    when [modified <= last_run_date]; when [modified] is later, by however
    little, and the first distribution names a file that downloads and the
    output file can be written, it writes the file and returns the
    identifier. *)
Theorem process_dataset_staleness_gate
    (env : Env) (o : gmap string json) (lr : datetime) (w : World)
    (dataset_id : json) (m : datetime) :
  o !! "identifier" = Some dataset_id ->
  Py.truthy dataset_id = true ->
  Datetime.fromisoformat (Py.dict_get o "modified") = Ok m ->
  (Datetime.le m lr = Ok true ->
   process_dataset env (JObj o) lr w
   = (Ok JNull, log_to w [Printed (SkippingUnchanged dataset_id)])) ∧
  (Datetime.le m lr = Ok false ->
   ∀ df, downloadable env o df ->
     ∃ url,
       process_dataset env (JObj o) lr w
       = (Ok dataset_id,
          {| metadata := metadata w;
             outputs := <[output_path env dataset_id := rename_columns df]>
                          (outputs w);
             trace := trace w ++
               [Printed (Downloading dataset_id); Requested (JStr url);
                CsvWritten (output_path env dataset_id);
                Printed (Saved dataset_id (output_path env dataset_id))] |})).
Proof.
  intros Hsome Hid Hm.
  assert (Py.dict_get o "identifier" = dataset_id) as Hget.
  { unfold Py.dict_get. by rewrite Hsome. }
  split.
  - intros Hle. rewrite process_dataset_eq. cbv zeta.
    by rewrite Hget, Hid, (fromisoformat_truthy _ _ Hm), Hm, Hle.
  - intros Hle df Hdl.
    destruct (process_dataset_fresh env o lr w df) as [url Hp].
    + by rewrite Hget.
    + by exists m.
    + done.
    + exists url. by rewrite Hget in Hp.
Qed.

Lemma process_dataset_staleness_gate_witness :
  process_dataset (Sample.online []) (JObj Sample.unchanged)
    Sample.first_january Sample.first_run
  = (Ok JNull,
     log_to Sample.first_run [Printed (SkippingUnchanged (JStr "xubh-q36u"))]) ∧
  ∃ url,
    process_dataset (Sample.online []) (JObj Sample.changed)
      Sample.first_january Sample.first_run
    = (Ok (JStr "xubh-q36u"),
       {| metadata := metadata Sample.first_run;
          outputs :=
            <[output_path (Sample.online []) (JStr "xubh-q36u")
                := rename_columns Sample.beds]> (outputs Sample.first_run);
          trace := trace Sample.first_run ++
            [Printed (Downloading (JStr "xubh-q36u")); Requested (JStr url);
             CsvWritten (output_path (Sample.online []) (JStr "xubh-q36u"));
             Printed (Saved (JStr "xubh-q36u")
                        (output_path (Sample.online []) (JStr "xubh-q36u")))] |}).
Proof.
  split.
  - apply (process_dataset_staleness_gate (Sample.online []) Sample.unchanged
             Sample.first_january Sample.first_run (JStr "xubh-q36u")
             Sample.first_january); by vm_compute.
  - apply (process_dataset_staleness_gate (Sample.online []) Sample.changed
             Sample.first_january Sample.first_run (JStr "xubh-q36u")
             Sample.one_second_later); try by vm_compute.
    exists {[ "downloadURL" := JStr Sample.url ]}, [], Sample.url.
    split_and!; by vm_compute.
Defined.

(** C6, at a record modified after the last run that lists no distribution:
    nothing is written. *)
Lemma newer_without_distribution_not_written :
  newer Sample.undistributed Sample.first_january ∧
  process_dataset (Sample.online []) (JObj Sample.undistributed)
    Sample.first_january Sample.first_run
  = (Ok JNull,
     log_to Sample.first_run [Printed (NoDownloadURL (JStr "xubh-q36u"))]).
Proof.
  split; [|by vm_compute].
  exists Sample.one_second_later. by vm_compute.
Qed.

(** C6, amended: [process_dataset] writes the output file of a record exactly
    when the identifier is not empty, [modified] is strictly later than the
    last run, the first distribution names a file that downloads, and the
    write succeeds; in every other case the output directory is left as it
    was. So a file is written again only if [modified] is later than the last
    run. *)
Theorem output_written_iff_newer_and_downloaded
    (env : Env) (o : gmap string json) (lr : datetime) (w : World) :
  let dataset_id := Py.dict_get o "identifier" in
  let output_file := output_path env dataset_id in
  let w' := (process_dataset env (JObj o) lr w).2 in
  ∃ new,
    trace w' = trace w ++ new ∧
    ((∃ df, Py.truthy dataset_id = true ∧ newer o lr ∧ downloadable env o df ∧
            written new = [output_file] ∧
            outputs w' = <[output_file := rename_columns df]> (outputs w)) ∨
     (¬ (Py.truthy dataset_id = true ∧ newer o lr ∧ ∃ df, downloadable env o df) ∧
      written new = [] ∧ outputs w' = outputs w)).
Proof. apply process_dataset_written. Qed.

(** C10: an identifier or a [modified] that is present and empty is handled
    as a missing one: [process_dataset] returns [None] and leaves the world
    as it found it, with nothing parsed, requested, written or logged. *)
Theorem process_dataset_empty_field_as_missing
    (env : Env) (o : gmap string json) (lr : datetime) (w : World)
    (field : string) :
  field = "identifier" ∨ field = "modified" ->
  o !! field = Some (JStr "") ->
  process_dataset env (JObj o) lr w = (Ok JNull, w) ∧
  process_dataset env (JObj (delete field o)) lr w = (Ok JNull, w).
Proof.
  intros Hfield Hempty.
  assert (Py.truthy (Py.dict_get o field) = false) as Ho.
  { unfold Py.dict_get. by rewrite Hempty. }
  assert (Py.truthy (Py.dict_get (delete field o) field) = false) as Hd.
  { unfold Py.dict_get. by rewrite lookup_delete_eq. }
  rewrite !process_dataset_eq. cbv zeta.
  destruct Hfield as [-> | ->]; rewrite Ho, Hd; cbn [negb orb];
    by rewrite ?orb_true_r.
Qed.

Lemma process_dataset_empty_field_as_missing_witness :
  (process_dataset (Sample.online []) (JObj Sample.unnamed)
     Sample.first_january Sample.first_run = (Ok JNull, Sample.first_run) ∧
   process_dataset (Sample.online []) (JObj (delete "identifier" Sample.unnamed))
     Sample.first_january Sample.first_run = (Ok JNull, Sample.first_run)) ∧
  (process_dataset (Sample.online []) (JObj Sample.undated)
     Sample.first_january Sample.first_run = (Ok JNull, Sample.first_run) ∧
   process_dataset (Sample.online []) (JObj (delete "modified" Sample.undated))
     Sample.first_january Sample.first_run = (Ok JNull, Sample.first_run)).
Proof.
  split.
  - apply (process_dataset_empty_field_as_missing (Sample.online [])
             Sample.unnamed Sample.first_january Sample.first_run "identifier");
      [by left | by vm_compute].
  - apply (process_dataset_empty_field_as_missing (Sample.online [])
             Sample.undated Sample.first_january Sample.first_run "modified");
      [by right | by vm_compute].
Defined.

(** ** The orchestrator *)

Section Paths.

Lemma last_append s t : t ≠ "" -> Str.last (s +:+ t) = Str.last t.
Proof.
  intros Ht. induction s as [|c s IH]; [done|].
  change (Str.last (String c (s +:+ t)) = Str.last t).
  destruct (s +:+ t) as [|c' r] eqn:E.
  - destruct s; simpl in E; [by subst|discriminate].
  - by rewrite <- IH.
Qed.

Lemma path_join_last a b : b ≠ "" -> Str.last (Py.path_join a b) = Str.last b.
Proof.
  intros Hb. unfold Py.path_join.
  assert (Str.last (if String.eqb a "" then b
                    else if String.eqb
                           (String.substring (String.length a - 1) 1 a) "/"
                         then a +:+ b else a +:+ "/" +:+ b) = Str.last b) as H.
  { repeat case_match; [done|by apply last_append|].
    rewrite last_append by done. by apply (last_append "/"). }
  destruct b as [|c b]; [done|].
  destruct (ascii_dec c "/") as [->|Hc]; [done|].
  destruct c as [[] [] [] [] [] [] [] []]; try exact H. done.
Qed.

(** X18: no output file is the metadata file, whatever the identifier and
    the output directory: the worker never writes over the timestamp. *)
Lemma output_path_not_metadata env dataset_id :
  output_path env dataset_id ≠ METADATA_FILE env.
Proof.
  intros Heq. apply (f_equal Str.last) in Heq.
  unfold output_path, METADATA_FILE in Heq.
  rewrite !path_join_last in Heq; [|done|by destruct (format env dataset_id)].
  by rewrite last_append in Heq.
Qed.

End Paths.

Section Orchestrator.
Context (env : Env).

Lemma saved_app a b : saved (a ++ b) = saved a ++ saved b.
Proof. apply omap_app. Qed.

(** The pool adds what its tasks add. *)
Lemma dataset_pass_appends lr datasets w :
  ∃ new,
    trace (dataset_pass env lr datasets w).2 = trace w ++ new ∧
    metadata (dataset_pass env lr datasets w).2 = metadata w ∧
    saved new = [].
Proof.
  unfold dataset_pass. revert w.
  induction datasets as [|ds tl IH]; intros w; simpl.
  - exists []. by rewrite app_nil_r.
  - destruct (process_dataset_appends env ds lr w) as (new1 & Ht1 & Hm1 & Hs1).
    destruct (process_dataset env ds lr w) as [r w1]. simpl in *.
    destruct (IH w1) as (new2 & Ht2 & Hm2 & Hs2).
    destruct (run_pool _ w1) as [rs w2]. simpl in *.
    exists (new1 ++ new2). rewrite Ht2, Ht1, Hm2, Hm1, saved_app, Hs1, Hs2.
    by rewrite app_assoc.
Qed.

Lemma gather_ok futures :
  is_ok (gather futures) = true <-> Forall (fun f => is_ok f = true) futures.
Proof.
  induction futures as [|[r|e] tl IH]; simpl.
  - done.
  - rewrite Forall_cons. destruct (gather tl); simpl in *; naive_solver.
  - rewrite Forall_cons. naive_solver.
Qed.

Lemma load_last_update_date_appends w :
  ∃ new,
    trace (load_last_update_date w).2 = trace w ++ new ∧
    metadata (load_last_update_date w).2 = metadata w ∧
    saved new = [].
Proof.
  unfold load_last_update_date. destruct (metadata w) eqn:E; simpl.
  - exists []. by rewrite app_nil_r.
  - by eexists.
Qed.

(** The job, phase by phase. *)
Lemma run_etl_job_eq w :
  run_etl_job env w =
  match load_last_update_date (log_to w [Printed JobStarted]) with
  | (Raise e, w1) => (Raise e, w1)
  | (Ok last_run_date, w1) =>
      match fetch_hospital_datasets env with
      | Raise e => (Raise e, w1)
      | Ok datasets =>
          let '(futures, w2) := dataset_pass env last_run_date datasets w1 in
          match gather futures with
          | Raise e => (Raise e, w2)
          | Ok processed =>
              (Ok tt,
               {| metadata := Some (Doc (JObj {[ "last_run" :=
                                JStr (Datetime.isoformat (now env)) ]}));
                  outputs := outputs w2;
                  trace := trace w2 ++
                    [MetadataWritten (Datetime.isoformat (now env));
                     Printed (JobCompleted (length processed))] |})
          end
      end
  end.
Proof.
  unfold run_etl_job, bind, lift, log, emit, log_to, dataset_pass,
    update_last_run_date.
  destruct (load_last_update_date _) as [[lr|e] w1]; [|done].
  destruct (fetch_hospital_datasets env) as [dss|e]; [|done].
  destruct (run_pool _ w1) as [futures w2].
  destruct (gather futures); [|done].
  simpl. by rewrite <- app_assoc.
Qed.
End Orchestrator.

(** The save as the code has it: a run that returns has written the
    metadata file once, with the time read at that moment, after every event
    of the dataset pass and before the closing log line only; a run that
    raises has not written it and leaves the record it found. The run
    returns, and so saves, exactly when the record loads, the catalog answers
    and no future raises. *)
Theorem run_etl_job_saves_once_after_pass (env : Env) (w : World) :
  let r := (run_etl_job env w).1 in
  let w' := (run_etl_job env w).2 in
  let last_run := Datetime.isoformat (now env) in
  (∃ events,
     trace w' = trace w ++ events ∧
     match r with
     | Ok _ =>
         (∃ before n,
            events = before ++ [MetadataWritten last_run; Printed (JobCompleted n)] ∧
            saved before = []) ∧
         metadata w' = Some (Doc (JObj {[ "last_run" := JStr last_run ]}))
     | Raise _ => saved events = [] ∧ metadata w' = metadata w
     end) ∧
  (is_ok r = true <->
   ∃ lr w1 datasets,
     load_last_update_date (log_to w [Printed JobStarted]) = (Ok lr, w1) ∧
     fetch_hospital_datasets env = Ok datasets ∧
     Forall (fun f => is_ok f = true) (dataset_pass env lr datasets w1).1).
Proof.
  cbv zeta. rewrite run_etl_job_eq.
  destruct (load_last_update_date_appends (log_to w [Printed JobStarted]))
    as (new1 & Ht1 & Hm1 & Hs1).
  destruct (load_last_update_date _) as [[lr|e] w1]; simpl in Ht1, Hm1; cycle 1.
  { split; [|split; [done|by intros (? & ? & ? & [=] & _)]].
    exists ([Printed JobStarted] ++ new1). simpl.
    rewrite Ht1, Hm1, <- app_assoc. by rewrite Hs1. }
  destruct (fetch_hospital_datasets env) as [datasets|e]; cycle 1.
  { split; [|split; [done|by intros (? & ? & ? & _ & [=] & _)]].
    exists ([Printed JobStarted] ++ new1). simpl.
    rewrite Ht1, Hm1, <- app_assoc. by rewrite Hs1. }
  destruct (dataset_pass_appends env lr datasets w1) as (new2 & Ht2 & Hm2 & Hs2).
  pose proof (gather_ok (dataset_pass env lr datasets w1).1) as Hok.
  destruct (dataset_pass env lr datasets w1) as [futures w2] eqn:Hpass.
  simpl in *.
  destruct (gather futures) as [processed|e]; simpl in *.
  - split.
    + exists (([Printed JobStarted] ++ new1 ++ new2) ++
              [MetadataWritten (Datetime.isoformat (now env));
               Printed (JobCompleted (length processed))]).
      split; [rewrite Ht2, Ht1; by rewrite <- !app_assoc|].
      split; [|done].
      exists ([Printed JobStarted] ++ new1 ++ new2), (length processed).
      split; [done|]. by rewrite !saved_app, Hs1, Hs2.
    + split; [|done]. intros _. exists lr, w1, datasets. split_and!; try done.
      rewrite Hpass. by apply Hok.
  - split.
    + exists ([Printed JobStarted] ++ new1 ++ new2). split_and!.
      * rewrite Ht2, Ht1. by rewrite <- !app_assoc.
      * by rewrite !saved_app, Hs1, Hs2.
      * by rewrite Hm2, Hm1.
    + split; [done|]. intros (lr' & w1' & dss' & [= <- <-] & [= <-] & Hall).
      rewrite Hpass in Hall. by apply Hok in Hall.
Qed.

(** ** The metadata store *)

Section Metadata.

Lemma min_le_valid d :
  tzinfo d = None -> Datetime.valid d = true ->
  Datetime.le Datetime.min d = Ok true.
Proof.
  intros Htz Hv. unfold Datetime.le. rewrite Htz. cbn [tzinfo Datetime.min].
  unfold Datetime.valid, Datetime.within in Hv.
  repeat (apply andb_true_iff in Hv as [Hv ?]).
  repeat match goal with
         | H : (_ <=? _) = true |- _ => apply Z.leb_le in H
         end.
  f_equal. unfold Datetime.fields. cbn [year month day hour minute second
    microsecond Datetime.min Datetime.cmp].
  repeat match goal with
         | |- context [?a ?= ?b] =>
             destruct (Z.compare_spec a b); try lia; try done
         end.
Qed.

Lemma read_last_run_holds f d :
  read_last_run f = Ok d <-> holds_last_run f d.
Proof.
  split.
  - destruct f as [|[| | | | |o]]; try done. simpl. unfold Py.dict_get.
    destruct (o !! "last_run") as [[| | |s| |]|] eqn:Ho; try done. simpl.
    destruct (Datetime.parse s) eqn:Hs; [|done]. intros [= <-].
    by exists o, s.
  - intros (o & s & -> & Ho & Hs). simpl. unfold Py.dict_get.
    rewrite Ho. simpl. by rewrite Hs.
Qed.

End Metadata.

(** C9: with no metadata file [load_last_update_date] returns
    [datetime.min], which no naive timestamp precedes, and raises nothing;
    with a file that holds a timestamp it returns that timestamp; with any
    other file it raises, and the run ends there with the same exception,
    before the catalog is asked and with the file as it was. *)
Theorem load_last_update_date_absent_or_corrupt (env : Env) (w : World) :
  (metadata w = None ->
   load_last_update_date w
   = (Ok Datetime.min, log_to w [Printed AssumingFirstRun])) ∧
  (∀ f, metadata w = Some f ->
     (∀ d, holds_last_run f d -> load_last_update_date w = (Ok d, w)) ∧
     ((¬ ∃ d, holds_last_run f d) ->
      ∃ e, load_last_update_date w = (Raise e, w) ∧
           run_etl_job env w = (Raise e, log_to w [Printed JobStarted]))) ∧
  (∀ d, tzinfo d = None -> Datetime.valid d = true ->
        Datetime.le Datetime.min d = Ok true).
Proof.
  split_and!.
  - intros Hnone. unfold load_last_update_date. by rewrite Hnone.
  - intros f Hsome. unfold load_last_update_date at 1 2. rewrite Hsome. split.
    + intros d Hd. by apply read_last_run_holds in Hd as ->.
    + intros Hcorrupt. destruct (read_last_run f) as [d|e] eqn:Hread.
      { destruct Hcorrupt. exists d. by apply read_last_run_holds. }
      exists e. split; [done|]. rewrite run_etl_job_eq.
      unfold load_last_update_date. simpl. by rewrite Hsome, Hread.
  - apply min_le_valid.
Qed.

Lemma load_last_update_date_absent_or_corrupt_witness :
  load_last_update_date Sample.first_run
  = (Ok Datetime.min, log_to Sample.first_run [Printed AssumingFirstRun]) ∧
  (∃ e, load_last_update_date Sample.garbled_run = (Raise e, Sample.garbled_run) ∧
        run_etl_job (Sample.online []) Sample.garbled_run
        = (Raise e, log_to Sample.garbled_run [Printed JobStarted])) ∧
  (∃ e, load_last_update_date Sample.misdated_run = (Raise e, Sample.misdated_run) ∧
        run_etl_job (Sample.online []) Sample.misdated_run
        = (Raise e, log_to Sample.misdated_run [Printed JobStarted])) ∧
  load_last_update_date (Sample.after_run "2024-01-01T00:00:00")
  = (Ok Sample.first_january, Sample.after_run "2024-01-01T00:00:00") ∧
  Datetime.le Datetime.min Sample.first_january = Ok true.
Proof.
  split_and!.
  - apply (load_last_update_date_absent_or_corrupt (Sample.online [])
             Sample.first_run). reflexivity.
  - destruct (load_last_update_date_absent_or_corrupt (Sample.online [])
                Sample.garbled_run) as (_ & H & _).
    apply (H Garbled); [reflexivity|].
    by intros (d & o & s & [=] & _).
  - destruct (load_last_update_date_absent_or_corrupt (Sample.online [])
                Sample.misdated_run) as (_ & H & _).
    apply (H (Doc (JObj {[ "last_run" := JStr "soon" ]}))); [reflexivity|].
    intros (d & o & s & [= <-] & Ho & Hs). vm_compute in Ho.
    injection Ho as <-. by vm_compute in Hs.
  - destruct (load_last_update_date_absent_or_corrupt (Sample.online [])
                (Sample.after_run "2024-01-01T00:00:00")) as (_ & H & _).
    apply (H (Doc (JObj {[ "last_run" := JStr "2024-01-01T00:00:00" ]})));
      [reflexivity|].
    exists {[ "last_run" := JStr "2024-01-01T00:00:00" ]}, "2024-01-01T00:00:00".
    split_and!; [reflexivity| |]; vm_compute; reflexivity.
  - apply (load_last_update_date_absent_or_corrupt (Sample.online [])
             Sample.first_run); by vm_compute.
Defined.

Lemma run_etl_job_saves_once_after_pass_witness :
  (∃ events,
     trace (run_etl_job Sample.quiet_catalog Sample.second_run).2
     = trace Sample.second_run ++ events ∧
     match (run_etl_job Sample.quiet_catalog Sample.second_run).1 with
     | Ok _ =>
         (∃ before n,
            events = before ++
              [MetadataWritten (Datetime.isoformat (now Sample.quiet_catalog));
               Printed (JobCompleted n)] ∧
            saved before = []) ∧
         metadata (run_etl_job Sample.quiet_catalog Sample.second_run).2
         = Some (Doc (JObj {[ "last_run" :=
                   JStr (Datetime.isoformat (now Sample.quiet_catalog)) ]}))
     | Raise _ =>
         saved events = [] ∧
         metadata (run_etl_job Sample.quiet_catalog Sample.second_run).2
         = metadata Sample.second_run
     end) ∧
  (is_ok (run_etl_job Sample.quiet_catalog Sample.second_run).1 = true <->
   ∃ lr w1 datasets,
     load_last_update_date (log_to Sample.second_run [Printed JobStarted])
     = (Ok lr, w1) ∧
     fetch_hospital_datasets Sample.quiet_catalog = Ok datasets ∧
     Forall (fun f => is_ok f = true)
       (dataset_pass Sample.quiet_catalog lr datasets w1).1).
Proof.
  exact (run_etl_job_saves_once_after_pass Sample.quiet_catalog Sample.second_run).
Defined.

(** C8, at a catalog whose first record has a [modified] that cannot be
    read: the metadata loads, the catalog answers, the pass runs to its end
    and writes the file of the second record; then [future.result()] raises
    again what the first task raised, [update_last_run_date] is never
    reached, and the run ends with the timestamp it found. *)
Lemma escaped_error_skips_save :
  load_last_update_date (log_to Sample.second_run [Printed JobStarted])
  = (Ok Sample.first_january,
     log_to Sample.second_run [Printed JobStarted]) ∧
  fetch_hospital_datasets Sample.troubled_catalog
  = Ok [JObj Sample.misdated; JObj Sample.changed] ∧
  (dataset_pass Sample.troubled_catalog Sample.first_january
     [JObj Sample.misdated; JObj Sample.changed]
     (log_to Sample.second_run [Printed JobStarted])).1
  = [Raise ValueError; Ok (JStr "xubh-q36u")] ∧
  (run_etl_job Sample.troubled_catalog Sample.second_run).1
  = Raise ValueError ∧
  trace (run_etl_job Sample.troubled_catalog Sample.second_run).2
  = [Printed JobStarted;
     Printed (Downloading (JStr "xubh-q36u"));
     Requested (JStr Sample.url);
     CsvWritten (output_path Sample.troubled_catalog (JStr "xubh-q36u"));
     Printed (Saved (JStr "xubh-q36u")
                (output_path Sample.troubled_catalog (JStr "xubh-q36u")))] ∧
  saved (trace (run_etl_job Sample.troubled_catalog Sample.second_run).2)
  = [] ∧
  metadata (run_etl_job Sample.troubled_catalog Sample.second_run).2
  = metadata Sample.second_run.
Proof. split_and!; vm_compute; reflexivity. Qed.

(** A second run with nothing new upstream writes no file and still moves
    the timestamp. *)
Example second_run_advances_timestamp :
  run_etl_job Sample.quiet_catalog Sample.second_run
  = (Ok tt,
     {| metadata := Some (Doc (JObj {[ "last_run" := JStr "2024-01-01T00:00:00" ]}));
        outputs := ∅;
        trace := [Printed JobStarted;
                  Printed (SkippingUnchanged (JStr "xubh-q36u"));
                  MetadataWritten "2024-01-01T00:00:00";
                  Printed (JobCompleted 0)] |}).
Proof. vm_compute. reflexivity. Qed.

(** * Further properties of the code *)

(** ** The name normaliser, continued *)

Section NormaliserShape.

Local Abbreviation F := (Str.re_sub_plus Str.out_class "_" false).
Local Abbreviation T := (Str.re_sub_plus Str.out_class "_" true).

Lemma inside_not_underscore c : Str.out_class c = false -> c ≠ "_"%char.
Proof. by intros H ->. Qed.

Lemma is_prefix_cons a p b s :
  Str.is_prefix (String a p) (String b s)
  = if ascii_dec a b then Str.is_prefix p s else false.
Proof. done. Qed.

(** The scanner never leaves two underscores side by side, and inside a
    match it never starts with one. *)
Lemma re_sub_plus_single_underscores s :
  Str.contains "__" (F s) = false ∧
  Str.contains "__" (T s) = false ∧
  Str.is_prefix "_" (T s) = false.
Proof.
  induction s as [|c r (IHF & IHT & IHp)]; [done|].
  destruct (Str.out_class c) eqn:Hc.
  - rewrite (F_outside _ _ Hc), (T_outside _ _ Hc).
    split; [|split; assumption].
    change (Str.is_prefix "_" (T r) || Str.contains "__" (T r) = false).
    by rewrite IHp, IHT.
  - rewrite !(re_sub_plus_inside _ _ _ Hc).
    pose proof (inside_not_underscore _ Hc) as Hne.
    assert (Str.is_prefix "__" (String c (F r)) = false) as H2.
    { rewrite is_prefix_cons. destruct (ascii_dec "_" c); [congruence|done]. }
    assert (Str.is_prefix "_" (String c (F r)) = false) as H1.
    { rewrite is_prefix_cons. destruct (ascii_dec "_" c); [congruence|done]. }
    split; [|split; [|assumption]].
    + change (Str.is_prefix "__" (String c (F r)) || Str.contains "__" (F r)
              = false). by rewrite H2, IHF.
    + change (Str.is_prefix "__" (String c (F r)) || Str.contains "__" (F r)
              = false). by rewrite H2, IHF.
Qed.

Lemma length_re_sub_plus b s :
  (String.length (Str.re_sub_plus Str.out_class "_" b s) <= String.length s)%nat.
Proof.
  revert b. induction s as [|c r IH]; intros b; [done|].
  destruct (Str.out_class c) eqn:Hc.
  - destruct b.
    + rewrite (T_outside _ _ Hc). specialize (IH true). simpl. lia.
    + rewrite (F_outside _ _ Hc). specialize (IH true). simpl. lia.
  - rewrite (re_sub_plus_inside _ _ _ Hc). specialize (IH false). simpl. lia.
Qed.

Lemma to_snake_case_unfold s :
  to_snake_case s = Str.re_sub Str.out_class "_" (Str.lower s).
Proof.
  unfold to_snake_case, Str.re_sub.
  apply strip_name_chars, re_sub_plus_name_chars.
Qed.

End NormaliserShape.

(** X1: every character of a normalised name is a lowercase letter, a digit
    or an underscore, and no two underscores stand side by side. *)
Theorem to_snake_case_alphabet (s : string) :
  Str.all name_char (to_snake_case s) = true ∧
  Str.contains "__" (to_snake_case s) = false.
Proof.
  rewrite to_snake_case_unfold. unfold Str.re_sub. split.
  - apply re_sub_plus_name_chars.
  - apply re_sub_plus_single_underscores.
Qed.

(** X2: the call to [strip] on line 41 never removes anything: the result is
    what [re.sub] returned. A name that starts outside [a-z0-9] once
    lowercased gets a leading underscore, and a blank in front of a name
    turns into one. *)
Theorem to_snake_case_never_trims (s : string) :
  to_snake_case s = Str.re_sub Str.out_class "_" (Str.lower s) ∧
  (∀ c r, s = String c r -> Str.out_class (Str.lower_char c) = true ->
          ∃ t, to_snake_case s = String "_" t) ∧
  (∀ c, Str.is_space c = true -> to_snake_case (String c s) = String "_"
          (Str.re_sub_plus Str.out_class "_" true (Str.lower s))).
Proof.
  split_and!.
  - apply to_snake_case_unfold.
  - intros c r -> Hc. rewrite to_snake_case_unfold. unfold Str.re_sub.
    simpl. rewrite Hc. by eexists.
  - intros c Hc. rewrite to_snake_case_unfold. unfold Str.re_sub. simpl.
    assert (Str.out_class (Str.lower_char c) = true) as ->; [|done].
    revert Hc. destruct c as [[] [] [] [] [] [] [] []]; vm_compute; congruence.
Qed.

(** X3: a normalised name is no longer than the lowercased name, and is
    empty only for the empty name. *)
Theorem to_snake_case_length (s : string) :
  (String.length (to_snake_case s) <= String.length (Str.lower s))%nat ∧
  (to_snake_case s = "" <-> s = "").
Proof.
  rewrite to_snake_case_unfold. unfold Str.re_sub. split.
  - apply length_re_sub_plus.
  - split; [|by intros ->].
    destruct s as [|c r]; [done|]. simpl.
    by destruct (Str.out_class (Str.lower_char c)).
Qed.

(** ** The dataset processor and the orchestrator, continued *)


Section Outcome.
Context (env : Env).

Lemma log_to_nil w : log_to w [] = w.
Proof. destruct w. unfold log_to. simpl. by rewrite app_nil_r. Qed.

Lemma process_dataset_outcome o lr w :
  outcome env o lr w (process_dataset env (JObj o) lr w).1
    (process_dataset env (JObj o) lr w).2.
Proof.
  assert (outcome env o lr w (Ok JNull) w) as Hskip.
  { rewrite <- (log_to_nil w) at 2. by constructor. }
  rewrite process_dataset_eq. cbv zeta.
  destruct (Py.truthy (Py.dict_get o "identifier")) eqn:Hid; [|done].
  destruct (Py.truthy (Py.dict_get o "modified")) eqn:Hmod; [|done].
  cbn [negb orb].
  destruct (Datetime.fromisoformat _) as [m|e] eqn:Hm; [|constructor].
  destruct (Datetime.le m lr) as [[]|e] eqn:Hle;
    [by constructor| |constructor].
  unfold Py.dict_get_or.
  destruct (o !! "distribution") as [dist|] eqn:Hdist; [|by constructor].
  cbn [default from_option id].
  destruct (Py.truthy dist) eqn:Hdt; [|by constructor].
  cbn [negb].
  destruct (Py.item0 dist) as [first|e] eqn:Hfirst; [|constructor].
  destruct (Py.get first "downloadURL") as [download_url|e] eqn:Hurl;
    [|constructor].
  destruct (first_download_url _ _ _ Hfirst Hurl) as (d & rest & -> & ->).
  destruct (Py.truthy (Py.dict_get d "downloadURL")) eqn:Hu; [|by constructor].
  cbn [negb]. rewrite guarded_download_eq. cbv zeta.
  destruct (Py.dict_get d "downloadURL") as [| | |u| |] eqn:Hget;
    try by constructor.
  destruct (read_csv env u) as [df|e] eqn:Hread; [|by constructor].
  destruct (to_csv_error env _) as [e|] eqn:Hwrite; [by constructor|].
  apply (Processed env o lr w df u); [done|by exists m|].
  exists d, rest, u. split_and!; try done.
  - unfold Py.dict_get in Hget. destruct (d !! "downloadURL"); by simplify_eq/=.
  - by intros ->.
Qed.

Lemma process_dataset_not_object ds lr w :
  (∀ o, ds ≠ JObj o) ->
  process_dataset env ds lr w = (Raise AttributeError, w).
Proof. intros H. destruct ds; try done. by destruct (H o). Qed.

End Outcome.

Section ProcessorExtras.
Context (env : Env).

Lemma rename_columns_name_chars df :
  Forall (fun c => Str.all name_char c = true) (columns (rename_columns df)).
Proof.
  unfold rename_columns. simpl. apply Forall_fmap, Forall_true. intros c. simpl.
  unfold to_snake_case, Str.re_sub.
  rewrite strip_name_chars by apply re_sub_plus_name_chars.
  apply re_sub_plus_name_chars.
Qed.

End ProcessorExtras.

(** X5: a result other than [None] is the identifier of the record; the
    record was then due, its first distribution downloaded, and the file of
    that identifier was written from the downloaded table with its columns
    renamed, every header made of name characters. *)
Theorem process_dataset_returns_identifier_after_write
    (env : Env) (o : gmap string json) (lr : datetime) (w : World) (r : json) :
  (process_dataset env (JObj o) lr w).1 = Ok r ->
  r ≠ JNull ->
  r = Py.dict_get o "identifier" ∧
  Py.truthy r = true ∧
  newer o lr ∧
  ∃ df file,
    downloadable env o df ∧
    outputs (process_dataset env (JObj o) lr w).2 !! output_path env r
    = Some file ∧
    file = rename_columns df ∧
    Forall (fun c => Str.all name_char c = true) (columns file).
Proof.
  intros Hr Hnn. pose proof (process_dataset_outcome env o lr w) as H.
  destruct (process_dataset env (JObj o) lr w) as [r' w']. simpl in *.
  subst r'. inversion H as [|new ? ?|df url Hid Hnew Hdl]; subst; [done|].
  split_and!; [done..|]. exists df, (rename_columns df). split_and!; [done| |done|].
  - apply lookup_insert_eq.
  - apply rename_columns_name_chars.
Qed.



Lemma process_dataset_returns_identifier_after_write_witness :
  JStr "xubh-q36u" = Py.dict_get Sample.changed "identifier" ∧
  Py.truthy (JStr "xubh-q36u") = true ∧
  newer Sample.changed Sample.first_january ∧
  ∃ df file,
    downloadable (Sample.online []) Sample.changed df ∧
    outputs (process_dataset (Sample.online []) (JObj Sample.changed)
               Sample.first_january Sample.first_run).2
      !! output_path (Sample.online []) (JStr "xubh-q36u")
    = Some file ∧
    file = rename_columns df ∧
    Forall (fun c => Str.all name_char c = true) (columns file).
Proof.
  apply (process_dataset_returns_identifier_after_write (Sample.online [])
           Sample.changed Sample.first_january Sample.first_run
           (JStr "xubh-q36u")); [by vm_compute|done].
Defined.

(** X6: [process_dataset] leaves the metadata file alone, changes no file
    but the one of the record, removes none, and only adds to the log. *)
Theorem process_dataset_touches_one_file
    (env : Env) (o : gmap string json) (lr : datetime) (w : World) :
  let w' := (process_dataset env (JObj o) lr w).2 in
  metadata w' = metadata w ∧
  (∀ p, p ≠ output_path env (Py.dict_get o "identifier") ->
        outputs w' !! p = outputs w !! p) ∧
  dom (outputs w) ⊆ dom (outputs w') ∧
  trace w `prefix_of` trace w'.
Proof.
  cbv zeta. pose proof (process_dataset_outcome env o lr w) as H.
  destruct (process_dataset env (JObj o) lr w) as [r w']. simpl in *.
  inversion H as [|new ? ?|df url Hid Hnew Hdl]; subst; simpl.
  - split_and!; [done|done|done|]. exists []. by rewrite app_nil_r.
  - split_and!; [done|done|done|]. by exists new.
  - split_and!; [done| | |by eexists].
    + intros p Hp. apply lookup_insert_ne. congruence.
    + rewrite dom_insert. set_solver.
Qed.

(** X7: when [process_dataset] raises, it has logged, requested and written
    nothing. *)
Theorem process_dataset_raises_before_any_effect
    (env : Env) (ds : json) (lr : datetime) (w : World) (e : exn) :
  (process_dataset env ds lr w).1 = Raise e ->
  (process_dataset env ds lr w).2 = w.
Proof.
  destruct ds as [| | | | |o]; try done.
  intros Hr. pose proof (process_dataset_outcome env o lr w) as H.
  destruct (process_dataset env (JObj o) lr w) as [r w']. simpl in *.
  subst r. by inversion H.
Qed.

Lemma process_dataset_raises_before_any_effect_witness :
  (process_dataset (Sample.online []) (JObj Sample.misdated)
     Sample.first_january Sample.second_run).2 = Sample.second_run.
Proof.
  apply (process_dataset_raises_before_any_effect (Sample.online [])
           (JObj Sample.misdated) Sample.first_january Sample.second_run
           ValueError). by vm_compute.
Defined.

(** X8: a [modified] with an offset against a last run without one, or the
    other way round, makes [process_dataset] raise [TypeError] at the
    comparison on line 60. *)
Theorem process_dataset_mixed_awareness_raises
    (env : Env) (o : gmap string json) (lr : datetime) (w : World)
    (m : datetime) :
  Py.truthy (Py.dict_get o "identifier") = true ->
  Datetime.fromisoformat (Py.dict_get o "modified") = Ok m ->
  is_Some (tzinfo m) <-> tzinfo lr = None ->
  process_dataset env (JObj o) lr w = (Raise TypeError, w).
Proof.
  intros Hid Hm Htz. rewrite process_dataset_eq. cbv zeta.
  rewrite Hid, (fromisoformat_truthy _ _ Hm), Hm. cbn [negb orb].
  unfold Datetime.le.
  destruct (tzinfo m) as [off|], (tzinfo lr) as [off'|]; try done.
  - destruct Htz as [Htz _]. by specialize (Htz (ltac:(eauto))).
  - destruct Htz as [_ Htz]. by destruct (Htz eq_refl).
Qed.

Lemma process_dataset_mixed_awareness_raises_witness :
  process_dataset (Sample.online []) (JObj Sample.zoned) Sample.first_january
    Sample.second_run = (Raise TypeError, Sample.second_run).
Proof.
  apply (process_dataset_mixed_awareness_raises (Sample.online []) Sample.zoned
           Sample.first_january Sample.second_run
           {| year := 2024; month := 1; day := 5; hour := 0; minute := 0;
              second := 0; microsecond := 0; tzinfo := Some 0 |});
    [by vm_compute..|].
  split; [done|]. intros _. by exists 0.
Defined.

Section FirstRun.

Lemma parse_valid s d : Datetime.parse s = Some d -> Datetime.valid d = true.
Proof.
  unfold Datetime.parse. intros H.
  destruct (Datetime.parse_date s) as [[[[y mo] da] rest]|]; [|done].
  simpl in H.
  destruct (match rest with
            | "" => Some (0, 0, 0, 0, None)
            | String _ tstr => Datetime.parse_time tstr
            end) as [[[[[h mi] sec] f] tz]|]; [|done].
  simpl in H. destruct (Datetime.valid _) eqn:Hv; [|done].
  by injection H as <-.
Qed.

Lemma fromisoformat_valid v d :
  Datetime.fromisoformat v = Ok d -> Datetime.valid d = true.
Proof.
  destruct v as [| | |s| |]; try done. simpl.
  destruct (Datetime.parse s) eqn:Hs; [|done]. intros [= <-].
  by apply parse_valid in Hs.
Qed.

(** Only [datetime.min] itself is not later than [datetime.min]. *)
Lemma later_than_min d :
  tzinfo d = None -> Datetime.valid d = true -> d ≠ Datetime.min ->
  Datetime.le d Datetime.min = Ok false.
Proof.
  destruct d as [y mo da h mi s us tz]. simpl. intros -> Hv Hne.
  unfold Datetime.valid, Datetime.within in Hv. simpl in Hv.
  repeat (apply andb_true_iff in Hv as [Hv ?]).
  repeat match goal with
         | H : (_ <=? _) = true |- _ => apply Z.leb_le in H
         end.
  unfold Datetime.le. simpl. f_equal.
  repeat match goal with
         | |- context [?a ?= ?b] =>
             destruct (Z.compare_spec a b); try lia; try done; subst
         end.
  all: by destruct Hne.
Qed.

End FirstRun.

(** X9: against [datetime.min], the last run of a first run, every record
    with an identifier, a naive [modified] other than [datetime.min] itself
    and a file that downloads is written. *)
Theorem first_run_processes_every_download
    (env : Env) (o : gmap string json) (w : World) (m : datetime) (df : table) :
  Py.truthy (Py.dict_get o "identifier") = true ->
  Datetime.fromisoformat (Py.dict_get o "modified") = Ok m ->
  tzinfo m = None ->
  m ≠ Datetime.min ->
  downloadable env o df ->
  (process_dataset env (JObj o) Datetime.min w).1
  = Ok (Py.dict_get o "identifier") ∧
  outputs (process_dataset env (JObj o) Datetime.min w).2
  = <[output_path env (Py.dict_get o "identifier") := rename_columns df]>
      (outputs w).
Proof.
  intros Hid Hm Htz Hne Hdl.
  destruct (process_dataset_fresh env o Datetime.min w df) as [url ->];
    [done| |done|done].
  exists m. split; [done|].
  apply later_than_min; [done| |done]. by apply fromisoformat_valid in Hm.
Qed.

Lemma first_run_processes_every_download_witness :
  (process_dataset (Sample.online []) (JObj Sample.changed) Datetime.min
     Sample.first_run).1
  = Ok (Py.dict_get Sample.changed "identifier") ∧
  outputs (process_dataset (Sample.online []) (JObj Sample.changed)
             Datetime.min Sample.first_run).2
  = <[output_path (Sample.online []) (Py.dict_get Sample.changed "identifier")
        := rename_columns Sample.beds]> (outputs Sample.first_run).
Proof.
  apply (first_run_processes_every_download (Sample.online []) Sample.changed
           Sample.first_run Sample.one_second_later Sample.beds);
    try by vm_compute.
  exists {[ "downloadURL" := JStr Sample.url ]}, [], Sample.url.
  split_and!; by vm_compute.
Defined.

Section Again.
Context (env : Env).

(** What the worker returns does not depend on the files already there. *)
Lemma process_dataset_result_independent o lr w1 w2 :
  (process_dataset env (JObj o) lr w1).1 = (process_dataset env (JObj o) lr w2).1.
Proof.
  rewrite !process_dataset_eq. cbv zeta.
  repeat case_match; try done.
  rewrite !guarded_download_eq. cbv zeta. by repeat case_match.
Qed.

Lemma downloadable_functional o df1 df2 :
  downloadable env o df1 -> downloadable env o df2 -> df1 = df2.
Proof.
  intros (f1 & r1 & u1 & Hd1 & Hu1 & _ & Hr1 & _)
         (f2 & r2 & u2 & Hd2 & Hu2 & _ & Hr2 & _).
  rewrite Hd1 in Hd2. injection Hd2 as <- <-.
  rewrite Hu1 in Hu2. injection Hu2 as <-. congruence.
Qed.

End Again.

(** X10: processing a record a second time returns what the first time
    returned and leaves the output directory as the first time left it: the
    file is replaced, nothing is added. *)
Theorem process_dataset_twice_as_once
    (env : Env) (o : gmap string json) (lr : datetime) (w : World) :
  let once := (process_dataset env (JObj o) lr w).2 in
  let twice := (process_dataset env (JObj o) lr once).2 in
  (process_dataset env (JObj o) lr once).1 = (process_dataset env (JObj o) lr w).1 ∧
  outputs twice = outputs once ∧
  metadata twice = metadata w.
Proof.
  cbv zeta. split; [apply process_dataset_result_independent|].
  destruct (process_dataset_appends env (JObj o) lr w) as (? & _ & Hm1 & _).
  destruct (process_dataset_appends env (JObj o) lr
              (process_dataset env (JObj o) lr w).2) as (? & _ & Hm2 & _).
  split; [|by rewrite Hm2].
  pose proof (process_dataset_written env o lr w) as (n1 & _ & Hw1).
  pose proof (process_dataset_written env o lr
                (process_dataset env (JObj o) lr w).2) as (n2 & _ & Hw2).
  cbv zeta in *.
  destruct Hw2 as [(d2 & ? & ? & Hd2 & _ & ->)|(_ & _ & ->)]; [|done].
  destruct Hw1 as [(d1 & ? & ? & Hd1 & _ & ->)|(Hn1 & _)].
  - rewrite (downloadable_functional env o d2 d1 Hd2 Hd1).
    by rewrite insert_insert_eq.
  - destruct Hn1. eauto.
Qed.

Section Account.
Context (env : Env).

Lemma written_app a b : written (a ++ b) = written a ++ written b.
Proof. apply omap_app. Qed.

(** One task on the books: what it logged, what it left alone, and one file
    written for a true result. *)
Lemma process_dataset_account ds lr w :
  ∃ new,
    trace (process_dataset env ds lr w).2 = trace w ++ new ∧
    (∀ p, p ∉ written new ->
          outputs (process_dataset env ds lr w).2 !! p = outputs w !! p) ∧
    dom (outputs w) ⊆ dom (outputs (process_dataset env ds lr w).2) ∧
    match (process_dataset env ds lr w).1 with
    | Ok v => length (written new) = if Py.truthy v then 1%nat else 0%nat
    | Raise _ => True
    end.
Proof.
  assert (∀ e, ∃ new, trace w = trace w ++ new ∧
            (∀ p, p ∉ written new -> outputs w !! p = outputs w !! p) ∧
            dom (outputs w) ⊆ dom (outputs w) ∧
            match @Raise json e with
            | Ok v => length (written new) = if Py.truthy v then 1%nat else 0%nat
            | Raise _ => True
            end) as Hnil.
  { intros e. exists []. by rewrite app_nil_r. }
  destruct ds as [| | | | |o]; try exact (Hnil AttributeError).
  pose proof (process_dataset_outcome env o lr w) as H.
  destruct (process_dataset env (JObj o) lr w) as [r w']. simpl in *.
  inversion H as [e|new Hw Hs|df url Hid Hnew Hdl]; subst.
  - exact (Hnil e).
  - exists new. simpl. by rewrite Hw.
  - eexists. split; [reflexivity|]. simpl. rewrite Hid. split_and!; [|set_solver|done].
    intros p Hp. apply lookup_insert_ne. set_solver.
Qed.

Lemma dataset_pass_account lr datasets w :
  ∃ new,
    trace (dataset_pass env lr datasets w).2 = trace w ++ new ∧
    (∀ p, p ∉ written new ->
          outputs (dataset_pass env lr datasets w).2 !! p = outputs w !! p) ∧
    dom (outputs w) ⊆ dom (outputs (dataset_pass env lr datasets w).2) ∧
    ∀ processed,
      gather (dataset_pass env lr datasets w).1 = Ok processed ->
      length processed = length (written new).
Proof.
  unfold dataset_pass. revert w.
  induction datasets as [|ds tl IH]; intros w; simpl.
  - exists []. rewrite app_nil_r. split_and!; try done. by intros ? [= <-].
  - destruct (process_dataset_account ds lr w) as (n1 & Ht1 & Hf1 & Hd1 & Hc1).
    destruct (process_dataset env ds lr w) as [r w1]. simpl in *.
    destruct (IH w1) as (n2 & Ht2 & Hf2 & Hd2 & Hc2).
    destruct (run_pool _ w1) as [rs w2]. simpl in *.
    exists (n1 ++ n2). rewrite written_app. split_and!.
    + by rewrite Ht2, Ht1, app_assoc.
    + intros p Hp. rewrite Hf2, Hf1; [done|set_solver..].
    + set_solver.
    + intros processed Hg. destruct r as [v|e]; [|done]. simpl in Hg.
      destruct (gather rs) as [tl'|]; [|done]. simpl in Hg.
      injection Hg as <-. rewrite length_app, Hc1, <- (Hc2 tl' eq_refl).
      by destruct (Py.truthy v).
Qed.

Lemma load_last_update_date_quiet w :
  ∃ new,
    trace (load_last_update_date w).2 = trace w ++ new ∧
    written new = [] ∧
    outputs (load_last_update_date w).2 = outputs w.
Proof.
  unfold load_last_update_date. destruct (metadata w); simpl.
  - exists []. by rewrite app_nil_r.
  - by eexists.
Qed.

End Account.

(** X14: the number in the closing log line of a run is the number of files
    the run wrote. *)
Theorem run_etl_job_counts_files_written (env : Env) (w : World) :
  (run_etl_job env w).1 = Ok tt ->
  ∃ events,
    trace (run_etl_job env w).2
    = trace w ++ events ++
        [MetadataWritten (Datetime.isoformat (now env));
         Printed (JobCompleted (length (written events)))].
Proof.
  rewrite run_etl_job_eq.
  destruct (load_last_update_date_quiet (log_to w [Printed JobStarted]))
    as (n1 & Ht1 & Hn1 & _).
  destruct (load_last_update_date _) as [[lr|e] w1]; [|done].
  destruct (fetch_hospital_datasets env) as [datasets|e]; [|done].
  destruct (dataset_pass_account env lr datasets w1) as (n2 & Ht2 & _ & _ & Hc).
  destruct (dataset_pass env lr datasets w1) as [futures w2]. simpl in *.
  destruct (gather futures) as [processed|e]; [|done]. intros _.
  exists ([Printed JobStarted] ++ n1 ++ n2).
  assert (written ([Printed JobStarted] ++ n1 ++ n2) = written n2) as ->.
  { by rewrite !written_app, Hn1. }
  rewrite <- (Hc processed eq_refl). cbn [snd trace].
  rewrite Ht2, Ht1. by rewrite <- !app_assoc.
Qed.


Lemma run_etl_job_counts_files_written_witness :
  ∃ events,
    trace (run_etl_job Sample.mixed_catalog Sample.second_run).2
    = trace Sample.second_run ++ events ++
        [MetadataWritten (Datetime.isoformat (now Sample.mixed_catalog));
         Printed (JobCompleted (length (written events)))].
Proof.
  apply (run_etl_job_counts_files_written Sample.mixed_catalog Sample.second_run).
  by vm_compute.
Defined.

(** X15: a run, returning or not, removes no output file and changes none
    but those it logged as written. *)
Theorem run_etl_job_keeps_other_files (env : Env) (w : World) :
  ∃ events,
    trace (run_etl_job env w).2 = trace w ++ events ∧
    (∀ p, p ∉ written events ->
          outputs (run_etl_job env w).2 !! p = outputs w !! p) ∧
    dom (outputs w) ⊆ dom (outputs (run_etl_job env w).2).
Proof.
  rewrite run_etl_job_eq.
  destruct (load_last_update_date_quiet (log_to w [Printed JobStarted]))
    as (n1 & Ht1 & Hn1 & Ho1).
  assert (written ([Printed JobStarted] ++ n1) = []) as Hquiet.
  { by rewrite written_app, Hn1. }
  destruct (load_last_update_date _) as [[lr|e] w1]; simpl in Ht1, Ho1; cycle 1.
  { exists ([Printed JobStarted] ++ n1). simpl.
    rewrite Ht1, Ho1, <- app_assoc. done. }
  destruct (fetch_hospital_datasets env) as [datasets|e]; cycle 1.
  { exists ([Printed JobStarted] ++ n1). simpl.
    rewrite Ht1, Ho1, <- app_assoc. done. }
  destruct (dataset_pass_account env lr datasets w1) as (n2 & Ht2 & Hf2 & Hd2 & _).
  destruct (dataset_pass env lr datasets w1) as [futures w2].
  cbn [fst snd] in *.
  assert (∀ tl, written tl = [] -> ∀ p,
            p ∉ written (([Printed JobStarted] ++ n1) ++ n2 ++ tl) ->
            outputs w2 !! p = outputs w !! p) as Hframe.
  { intros tl Htl p Hp.
    rewrite (written_app ([Printed JobStarted] ++ n1)), Hquiet in Hp.
    rewrite written_app, Htl, app_nil_r in Hp.
    rewrite Hf2 by done. by rewrite Ho1. }
  destruct (gather futures) as [processed|e]; cbn [fst snd trace outputs].
  - exists (([Printed JobStarted] ++ n1) ++ n2 ++
            [MetadataWritten (Datetime.isoformat (now env));
             Printed (JobCompleted (length processed))]).
    split_and!.
    + rewrite Ht2, Ht1. by rewrite <- !app_assoc.
    + by apply Hframe.
    + by rewrite <- Ho1.
  - exists (([Printed JobStarted] ++ n1) ++ n2 ++ []).
    split_and!.
    + rewrite Ht2, Ht1, app_nil_r. by rewrite <- !app_assoc.
    + by apply Hframe.
    + by rewrite <- Ho1.
Qed.

(** X16: when the catalog request fails the run raises, the error being the
    one of the request unless the metadata failed to load first, and has
    only printed: no file and no metadata written. *)
Theorem run_etl_job_without_catalog (env : Env) (w : World) (e : exn) :
  catalog env = Raise e ->
  (∃ e', (run_etl_job env w).1 = Raise e' ∧
         (is_ok (load_last_update_date w).1 = true -> e' = e)) ∧
  outputs (run_etl_job env w).2 = outputs w ∧
  metadata (run_etl_job env w).2 = metadata w ∧
  ∃ messages, trace (run_etl_job env w).2 = trace w ++ (Printed <$> messages).
Proof.
  intros Hcat. rewrite run_etl_job_eq.
  unfold fetch_hospital_datasets. rewrite Hcat. cbn [rbind].
  unfold load_last_update_date. cbn [log_to metadata].
  destruct (metadata w) as [f|] eqn:Hmeta; simpl.
  - destruct (read_last_run f) as [d|e']; simpl.
    + split_and!; [by exists e|done|done|]. by exists [JobStarted].
    + split_and!; [by exists e'|done|done|]. by exists [JobStarted].
  - split_and!; [by exists e|done|done|]. exists [JobStarted; AssumingFirstRun].
    simpl. by rewrite <- app_assoc.
Qed.

Lemma run_etl_job_without_catalog_witness :
  (∃ e', (run_etl_job Sample.offline Sample.second_run).1 = Raise e' ∧
         (is_ok (load_last_update_date Sample.second_run).1 = true ->
          e' = RequestException)) ∧
  outputs (run_etl_job Sample.offline Sample.second_run).2 = outputs Sample.second_run ∧
  metadata (run_etl_job Sample.offline Sample.second_run).2
  = metadata Sample.second_run ∧
  ∃ messages, trace (run_etl_job Sample.offline Sample.second_run).2
              = trace Sample.second_run ++ (Printed <$> messages).
Proof.
  apply (run_etl_job_without_catalog Sample.offline Sample.second_run RequestException).
  reflexivity.
Defined.

Section CatalogAny.

Lemma is_hospital_dataset_inv ds keep :
  is_hospital_dataset ds = Ok keep ->
  ∃ o, ds = JObj o ∧
       (keep = true ->
        ∃ theme, o !! "theme" = Some theme ∧ Py.truthy theme = true ∧
                 Py.contains "Hospitals" theme = Ok true).
Proof.
  destruct ds as [| | | | |o]; try done. intros H. exists o. split; [done|].
  intros ->. unfold is_hospital_dataset, Py.get, Py.dict_get in H. simpl in H.
  destruct (o !! "theme") as [theme|]; [|done]. simpl in H.
  exists theme. by destruct (Py.truthy theme).
Qed.

Lemma select_inv items kept :
  select items = Ok kept ->
  kept `sublist_of` items ∧
  Forall (fun ds => ∃ o, ds = JObj o) items ∧
  Forall (fun ds => ∃ o theme,
            ds = JObj o ∧ o !! "theme" = Some theme ∧
            Py.truthy theme = true ∧
            Py.contains "Hospitals" theme = Ok true) kept.
Proof.
  revert kept. induction items as [|ds tl IH]; intros kept; simpl.
  - intros [= <-]. by split_and!.
  - destruct (is_hospital_dataset ds) as [keep|] eqn:Hds; [|done]. simpl.
    destruct (select tl) as [kept'|]; [|done]. simpl. intros [= <-].
    destruct (IH kept' eq_refl) as (Hsub & Hobj & Hkept).
    destruct (is_hospital_dataset_inv _ _ Hds) as (o & -> & Hth).
    destruct keep.
    + split_and!; [by constructor|constructor; eauto|].
      constructor; [|done]. destruct (Hth eq_refl) as (theme & ?). by exists o, theme.
    + split_and!; [by constructor|constructor; eauto|done].
Qed.

End CatalogAny.

(** X4: when [fetch_hospital_datasets] returns, the catalog answered, every
    item of the answer is an object, and what is returned is a part of the
    answer, in its order, made of objects whose theme is true and holds
    ["Hospitals"]. *)
Theorem fetch_hospital_datasets_sound (env : Env) (kept : list json) :
  fetch_hospital_datasets env = Ok kept ->
  ∃ datasets items,
    catalog env = Ok datasets ∧
    Py.iter datasets = Ok items ∧
    kept `sublist_of` items ∧
    Forall (fun ds => ∃ o, ds = JObj o) items ∧
    Forall (fun ds => ∃ o theme,
              ds = JObj o ∧ o !! "theme" = Some theme ∧
              Py.truthy theme = true ∧
              Py.contains "Hospitals" theme = Ok true) kept.
Proof.
  unfold fetch_hospital_datasets. intros H.
  destruct (catalog env) as [datasets|]; [|done]. simpl in H.
  destruct (Py.iter datasets) as [items|] eqn:Hit; [|done]. simpl in H.
  exists datasets, items. split; [done|]. split; [done|]. by apply select_inv.
Qed.

Lemma fetch_hospital_datasets_sound_witness :
  ∃ datasets items,
    catalog (Sample.online [Sample.hospitals; Sample.clinics]) = Ok datasets ∧
    Py.iter datasets = Ok items ∧
    [Sample.hospitals] `sublist_of` items ∧
    Forall (fun ds => ∃ o, ds = JObj o) items ∧
    Forall (fun ds => ∃ o theme,
              ds = JObj o ∧ o !! "theme" = Some theme ∧
              Py.truthy theme = true ∧
              Py.contains "Hospitals" theme = Ok true) [Sample.hospitals].
Proof.
  apply (fetch_hospital_datasets_sound
           (Sample.online [Sample.hospitals; Sample.clinics])
           [Sample.hospitals]).
  vm_compute. reflexivity.
Defined.

Section Paths2.






End Paths2.



Section Isolation.
Context (env : Env).

(** Whatever the other tasks do, a record that is due and downloads gets its
    file. *)
Lemma dataset_pass_writes_each lr datasets w :
  ∃ new,
    trace (dataset_pass env lr datasets w).2 = trace w ++ new ∧
    ∀ o df,
      JObj o ∈ datasets ->
      Py.truthy (Py.dict_get o "identifier") = true ->
      newer o lr ->
      downloadable env o df ->
      output_path env (Py.dict_get o "identifier") ∈ written new ∧
      is_Some (outputs (dataset_pass env lr datasets w).2
                 !! output_path env (Py.dict_get o "identifier")).
Proof.
  revert w. induction datasets as [|ds tl IH]; intros w.
  - exists []. rewrite app_nil_r. split; [done|]. by intros ?? ?%elem_of_nil.
  - destruct (IH (process_dataset env ds lr w).2) as (n2 & Ht2 & Hw2).
    destruct (process_dataset_account env ds lr w) as (n1 & Ht1 & _ & _ & _).
    destruct (dataset_pass_account env lr tl (process_dataset env ds lr w).2)
      as (n2' & _ & _ & Hdom & _).
    assert (dataset_pass env lr (ds :: tl) w
            = ((process_dataset env ds lr w).1
                 :: (dataset_pass env lr tl (process_dataset env ds lr w).2).1,
               (dataset_pass env lr tl (process_dataset env ds lr w).2).2))
      as ->.
    { unfold dataset_pass. simpl.
      destruct (process_dataset env ds lr w) as [r w1]. simpl.
      by destruct (run_pool _ w1). }
    cbn [snd]. exists (n1 ++ n2). split.
    { by rewrite Ht2, Ht1, app_assoc. }
    intros o df [<-|Hin]%elem_of_cons Hid Hnew Hdl.
    + destruct (process_dataset_fresh env o lr w df Hid Hnew Hdl) as [url Hp].
      cbv zeta in Hp. rewrite Hp in Ht1, Hdom |- *.
      cbn [snd trace outputs] in *.
      apply app_inv_head in Ht1. subst n1. split.
      * rewrite written_app. set_solver.
      * apply elem_of_dom. rewrite dom_insert in Hdom. set_solver.
    + destruct (Hw2 o df Hin Hid Hnew Hdl) as [Hw Hs]. split; [|done].
      rewrite written_app. set_solver.
Qed.

End Isolation.

(** X17: whatever happens to the other records of the catalog, and whether
    the run returns or not, a record that is due and downloads has its file
    written by the end of the run. *)
Theorem run_etl_job_writes_every_due_dataset
    (env : Env) (w w1 : World) (lr : datetime) (datasets : list json)
    (o : gmap string json) (df : table) :
  load_last_update_date (log_to w [Printed JobStarted]) = (Ok lr, w1) ->
  fetch_hospital_datasets env = Ok datasets ->
  JObj o ∈ datasets ->
  Py.truthy (Py.dict_get o "identifier") = true ->
  newer o lr ->
  downloadable env o df ->
  ∃ events,
    trace (run_etl_job env w).2 = trace w ++ events ∧
    output_path env (Py.dict_get o "identifier") ∈ written events ∧
    is_Some (outputs (run_etl_job env w).2
               !! output_path env (Py.dict_get o "identifier")).
Proof.
  intros Hload Hfetch Hin Hid Hnew Hdl. rewrite run_etl_job_eq.
  destruct (load_last_update_date_quiet (log_to w [Printed JobStarted]))
    as (n1 & Ht1 & _ & _).
  rewrite Hload in *. rewrite Hfetch. cbn [snd log_to trace] in Ht1.
  destruct (dataset_pass_writes_each env lr datasets w1) as (n2 & Ht2 & Hw).
  destruct (Hw o df Hin Hid Hnew Hdl) as [Hp Hs].
  destruct (dataset_pass env lr datasets w1) as [futures w2]. cbn [snd] in *.
  destruct (gather futures) as [processed|e]; cbn [snd trace outputs].
  - exists ([Printed JobStarted] ++ n1 ++ n2 ++
            [MetadataWritten (Datetime.isoformat (now env));
             Printed (JobCompleted (length processed))]).
    split_and!; [|rewrite !written_app; set_solver|done].
    rewrite Ht2, Ht1. by rewrite <- !app_assoc.
  - exists ([Printed JobStarted] ++ n1 ++ n2).
    split_and!; [|rewrite !written_app; set_solver|done].
    rewrite Ht2, Ht1. by rewrite <- !app_assoc.
Qed.


Lemma run_etl_job_writes_every_due_dataset_witness :
  (run_etl_job Sample.troubled_catalog Sample.second_run).1 = Raise ValueError ∧
  ∃ events,
    trace (run_etl_job Sample.troubled_catalog Sample.second_run).2
    = trace Sample.second_run ++ events ∧
    output_path Sample.troubled_catalog (Py.dict_get Sample.changed "identifier")
      ∈ written events ∧
    is_Some (outputs (run_etl_job Sample.troubled_catalog Sample.second_run).2
               !! output_path Sample.troubled_catalog
                    (Py.dict_get Sample.changed "identifier")).
Proof.
  split; [by vm_compute|].
  apply (run_etl_job_writes_every_due_dataset Sample.troubled_catalog
           Sample.second_run (log_to Sample.second_run [Printed JobStarted])
           Sample.first_january
           [JObj Sample.misdated; JObj Sample.changed] Sample.changed
           Sample.beds).
  - by vm_compute.
  - by vm_compute.
  - set_solver.
  - by vm_compute.
  - exists Sample.one_second_later. by vm_compute.
  - exists {[ "downloadURL" := JStr Sample.url ]}, [], Sample.url.
    split_and!; by vm_compute.
Defined.

(** ** The metadata store, continued *)

Section Timestamps.

Lemma append_empty s : s +:+ "" = s.
Proof.
  induction s as [|c s IH]; [done|].
  change (String c (s +:+ "") = String c s). by rewrite IH.
Qed.

Lemma zfill_append n v acc rest :
  Datetime.zfill n v acc +:+ rest = Datetime.zfill n v (acc +:+ rest).
Proof. revert v acc. induction n as [|n IH]; intros v acc; simpl; [done|]. by rewrite IH. Qed.

Lemma digit_digit_char v : Datetime.digit (Datetime.digit_char v) = Some (v mod 10).
Proof.
  unfold Datetime.digit_char.
  pose proof (Z.mod_pos_bound v 10 eq_refl) as Hm.
  generalize dependent (v mod 10). intros m Hm.
  assert (m = 0 ∨ m = 1 ∨ m = 2 ∨ m = 3 ∨ m = 4 ∨ m = 5 ∨ m = 6 ∨ m = 7 ∨
          m = 8 ∨ m = 9) as H by lia.
  repeat destruct H as [->|H]; try subst m; reflexivity.
Qed.

Lemma number_zfill n k a v acc :
  0 <= v ->
  Datetime.number (n + k) a (Datetime.zfill n v acc)
  = Datetime.number k (a * 10 ^ Z.of_nat n + v mod 10 ^ Z.of_nat n) acc.
Proof.
  revert k a v acc. induction n as [|n IH]; intros k a v acc Hv.
  - simpl. f_equal. rewrite Z.mod_1_r. lia.
  - change (Datetime.zfill (S n) v acc)
      with (Datetime.zfill n (v / 10) (String (Datetime.digit_char v) acc)).
    replace (S n + k)%nat with (n + S k)%nat by lia.
    rewrite IH by (apply Z.div_pos; lia).
    cbn [Datetime.number]. rewrite digit_digit_char. f_equal.
    rewrite Nat2Z.inj_succ, Z.pow_succ_r by lia.
    rewrite (Z.rem_mul_r v 10 (10 ^ Z.of_nat n)) by lia. lia.
Qed.

Lemma number_pad_end n v :
  0 <= v < 10 ^ Z.of_nat n ->
  Datetime.number n 0 (Datetime.pad n v) = Some (v, EmptyString).
Proof.
  intros Hv. unfold Datetime.pad.
  replace n with (n + 0)%nat at 1 by lia. rewrite number_zfill by lia.
  simpl. f_equal. f_equal. rewrite Z.mod_small; lia.
Qed.

Lemma number_pad n v rest :
  0 <= v < 10 ^ Z.of_nat n ->
  Datetime.number n 0 (Datetime.pad n v +:+ rest) = Some (v, rest).
Proof.
  intros Hv. unfold Datetime.pad. rewrite zfill_append.
  replace n with (n + 0)%nat at 1 by lia. rewrite number_zfill by lia.
  simpl. f_equal. f_equal. rewrite Z.mod_small; lia.
Qed.


Lemma all_append p a b : Str.all p (a +:+ b) = Str.all p a && Str.all p b.
Proof. induction a as [|c a IH]; simpl; [done|]. by rewrite IH, andb_assoc. Qed.

Lemma plain_digit_char v : plain (Datetime.digit_char v) = true.
Proof.
  unfold Datetime.digit_char.
  pose proof (Z.mod_pos_bound v 10 eq_refl) as Hm.
  generalize dependent (v mod 10). intros m Hm.
  assert (m = 0 ∨ m = 1 ∨ m = 2 ∨ m = 3 ∨ m = 4 ∨ m = 5 ∨ m = 6 ∨ m = 7 ∨
          m = 8 ∨ m = 9) as H by lia.
  repeat destruct H as [->|H]; try subst m; reflexivity.
Qed.

Lemma plain_zfill n v acc :
  Str.all plain acc = true -> Str.all plain (Datetime.zfill n v acc) = true.
Proof.
  revert v acc. induction n as [|n IH]; intros v acc Hacc; simpl; [done|].
  apply IH. simpl. by rewrite plain_digit_char.
Qed.

Lemma plain_pad n v : Str.all plain (Datetime.pad n v) = true.
Proof. by apply plain_zfill. Qed.

Lemma split_at_plain c s :
  plain c = false -> Str.all plain s = true -> Datetime.split_at c s = None.
Proof.
  intros Hc. induction s as [|c' s IH]; simpl; [done|].
  intros [Hc' Hs]%andb_true_iff. destruct (ascii_dec c c') as [->|_]; [congruence|].
  by rewrite IH.
Qed.

Lemma length_zfill n v acc :
  String.length (Datetime.zfill n v acc) = (n + String.length acc)%nat.
Proof.
  revert v acc. induction n as [|n IH]; intros v acc; simpl; [done|].
  rewrite IH. simpl. lia.
Qed.

Lemma length_pad n v : String.length (Datetime.pad n v) = n.
Proof. unfold Datetime.pad. rewrite length_zfill. simpl. lia. Qed.

#[local] Opaque Datetime.number Datetime.pad.

Ltac drop_empty :=
  repeat match goal with
         | |- context [String.append EmptyString ?x] =>
             change (String.append EmptyString x) with x
         end.

Lemma parse_date_pad y mo da rest :
  0 <= y < 10000 -> 0 <= mo < 100 -> 0 <= da < 100 ->
  Datetime.parse_date
    (Datetime.pad 4 y +:+ "-" +:+ Datetime.pad 2 mo +:+ "-" +:+
     Datetime.pad 2 da +:+ rest)
  = Some (y, mo, da, rest).
Proof.
  intros Hy Hmo Hda. unfold Datetime.parse_date.
  rewrite number_pad by (simpl; lia). simpl. drop_empty.
  rewrite number_pad by (simpl; lia). simpl. drop_empty.
  by rewrite number_pad by (simpl; lia).
Qed.


Lemma parse_hh_mm_ss_ff_pad h mi s us :
  0 <= h < 100 -> 0 <= mi < 100 -> 0 <= s < 100 -> 0 <= us < 1000000 ->
  Datetime.parse_hh_mm_ss_ff
    (Datetime.pad 2 h +:+ ":" +:+ Datetime.pad 2 mi +:+ ":" +:+
     Datetime.pad 2 s +:+ fraction us)
  = Some (h, mi, s, us).
Proof.
  intros Hh Hmi Hs Hus. unfold Datetime.parse_hh_mm_ss_ff.
  rewrite number_pad by (simpl; lia). simpl. drop_empty.
  rewrite number_pad by (simpl; lia). simpl. drop_empty.
  rewrite number_pad by (simpl; lia). simpl. drop_empty.
  unfold fraction. destruct (Z.eqb_spec us 0) as [->|Hne]; [done|].
  simpl. drop_empty. unfold Datetime.parse_fraction. simpl.
  assert (String.length (Datetime.pad 6 us) = 6%nat) as Hlen.
  { Transparent Datetime.pad. unfold Datetime.pad. Opaque Datetime.pad.
    by rewrite length_zfill. }
  drop_empty. rewrite Hlen. simpl. by rewrite number_pad_end by (simpl; lia).
Qed.

Lemma plain_time h mi s us :
  Str.all plain
    (Datetime.pad 2 h +:+ ":" +:+ Datetime.pad 2 mi +:+ ":" +:+
     Datetime.pad 2 s +:+ fraction us) = true.
Proof.
  unfold fraction. rewrite !all_append, !plain_pad.
  destruct (us =? 0); [done|]. by rewrite all_append, plain_pad.
Qed.

Lemma parse_time_pad h mi s us :
  0 <= h < 100 -> 0 <= mi < 100 -> 0 <= s < 100 -> 0 <= us < 1000000 ->
  Datetime.parse_time
    (Datetime.pad 2 h +:+ ":" +:+ Datetime.pad 2 mi +:+ ":" +:+
     Datetime.pad 2 s +:+ fraction us)
  = Some (h, mi, s, us, None).
Proof.
  intros. unfold Datetime.parse_time.
  rewrite !split_at_plain by (done || apply plain_time).
  by rewrite parse_hh_mm_ss_ff_pad.
Qed.

(** Reading back what [isoformat] printed. *)
Lemma parse_isoformat d :
  tzinfo d = None -> Datetime.valid d = true ->
  Datetime.parse (Datetime.isoformat d) = Some d.
Proof.
  destruct d as [y mo da h mi s us tz]. simpl. intros -> Hv.
  pose proof Hv as Hb. unfold Datetime.valid, Datetime.within in Hb. simpl in Hb.
  repeat (apply andb_true_iff in Hb as [Hb ?]).
  repeat match goal with
         | H : (_ <=? _) = true |- _ => apply Z.leb_le in H
         end.
  assert (da <= 31).
  { unfold Datetime.days_in_month in *. repeat case_match; lia. }
  unfold Datetime.isoformat, Datetime.parse.
  cbn [year month day hour minute second microsecond tzinfo].
  rewrite parse_date_pad by lia. simpl. drop_empty.
  rewrite append_empty. fold (fraction us).
  rewrite parse_time_pad by lia. simpl. by rewrite Hv.
Qed.

#[local] Transparent Datetime.number Datetime.pad.

End Timestamps.

(** X12: the timestamp [update_last_run_date] writes is the one
    [load_last_update_date] reads back, whatever the file held before. *)
Theorem saved_timestamp_loads_back (env : Env) (w : World) :
  tzinfo (now env) = None ->
  Datetime.valid (now env) = true ->
  Datetime.fromisoformat (JStr (Datetime.isoformat (now env))) = Ok (now env) ∧
  load_last_update_date (update_last_run_date env w).2
  = (Ok (now env), (update_last_run_date env w).2).
Proof.
  intros Htz Hv.
  assert (Datetime.fromisoformat (JStr (Datetime.isoformat (now env)))
          = Ok (now env)) as Hparse.
  { unfold Datetime.fromisoformat. by rewrite parse_isoformat. }
  split; [done|].
  unfold load_last_update_date, update_last_run_date.
  cbn [snd metadata read_last_run Py.get rbind].
  unfold Py.dict_get. rewrite lookup_singleton_eq.
  cbn [default from_option id]. by rewrite Hparse.
Qed.

Lemma saved_timestamp_loads_back_witness :
  Datetime.fromisoformat
    (JStr (Datetime.isoformat (now Sample.quiet_catalog)))
  = Ok (now Sample.quiet_catalog) ∧
  load_last_update_date
    (update_last_run_date Sample.quiet_catalog Sample.first_run).2
  = (Ok (now Sample.quiet_catalog),
     (update_last_run_date Sample.quiet_catalog Sample.first_run).2).
Proof.
  apply (saved_timestamp_loads_back Sample.quiet_catalog Sample.first_run);
    reflexivity.
Defined.

(** X13: after a run that returned, the next load gives the clock reading of
    that run. *)
Theorem run_then_load_returns_now (env : Env) (w : World) :
  (run_etl_job env w).1 = Ok tt ->
  tzinfo (now env) = None ->
  Datetime.valid (now env) = true ->
  load_last_update_date (run_etl_job env w).2
  = (Ok (now env), (run_etl_job env w).2).
Proof.
  intros Hrun Htz Hv. rewrite run_etl_job_eq in *.
  destruct (load_last_update_date _) as [[lr|e] w1]; [|done].
  destruct (fetch_hospital_datasets env) as [datasets|e]; [|done].
  destruct (dataset_pass env lr datasets w1) as [futures w2].
  destruct (gather futures) as [processed|e]; [|done].
  unfold load_last_update_date.
  cbn [snd metadata read_last_run Py.get rbind].
  unfold Py.dict_get. rewrite lookup_singleton_eq.
  cbn [default from_option id].
  unfold Datetime.fromisoformat. by rewrite parse_isoformat.
Qed.

Lemma run_then_load_returns_now_witness :
  load_last_update_date (run_etl_job Sample.quiet_catalog Sample.second_run).2
  = (Ok (now Sample.quiet_catalog),
     (run_etl_job Sample.quiet_catalog Sample.second_run).2).
Proof.
  apply (run_then_load_returns_now Sample.quiet_catalog Sample.second_run);
    by vm_compute.
Defined.
